(** * inflation: the rate table and its query engine

    A shallow embedding of [inflation.go] (package [inflation]) and of the
    [Data]/[Country] types of [data.go]; of [parseDate] and of the two steps
    of the import command of [main.go] that change the table.

    - Go [string]s are byte strings: [String.string].
    - Go [int] values (years, months, base years) are [Z]; the code compares
      and prints them but never does arithmetic on them, so no wrap-around
      can occur.  The only counter, [count] in [YearInflation], is bounded by
      the size of a map.
    - Go [float64] is Rocq's primitive [float] (IEEE 754 binary64), so that
      division by zero, rounding and the order of a summation behave as on
      the machine.
    - A Go [map] is the list of its entries, and a lookup finds the entry
      with the key.  Go leaves the order in which [range] visits a map
      unspecified and chooses it anew for every [range] statement that is
      executed.  A function with a single loop over a map is read with the
      list in the order of that loop, and statements are made for every
      list.  A function that reaches the averaging loop of [YearInflation]
      more than once takes one [order] for each of these loops: the
      rearrangement of the list that the loop visits.
    - Methods with receiver [d *Data] are computations in a state-and-error
      monad over [Data]; a failure is an [error] value that records the
      format string used and its arguments. *)

From Stdlib Require Import ZArith List String Ascii Bool Lia Permutation.
From Stdlib Require Import Floats Uint63 DecimalString.
From Stdlib Require DecimalPos.
Import ListNotations.

Set Warnings "-inexact-float".
Local Open Scope string_scope.
Local Open Scope Z_scope.

(** ** The parts of Go's library that the code calls *)

Module GoLib.

(** [strings.ToLower] restricted to what it does on bytes below 0x80:
    ['A'..'Z'] are moved to ['a'..'z'], every other byte is kept.  The
    development below is parametric in the lower-casing function; this
    instance is used to run the code on ASCII inputs. *)
Definition lower_byte (c : ascii) : ascii :=
  let n := nat_of_ascii c in
  if (Nat.leb 65 n && Nat.leb n 90)%bool then ascii_of_nat (n + 32) else c.

Fixpoint ToLowerASCII (s : string) : string :=
  match s with
  | EmptyString => EmptyString
  | String c s' => String (lower_byte c) (ToLowerASCII s')
  end.

(** [fmt.Sprintf("%d", n)]: decimal digits, with a leading [-] when
    negative. *)
Definition Sprintf_d (n : Z) : string :=
  NilZero.string_of_int (Z.to_int n).

(** [fmt.Sprintf("%02d", n)]: as [%d], padded with zeros on the left to a
    width of two characters. *)
Definition Sprintf_02d (n : Z) : string :=
  let s := Sprintf_d n in
  if Nat.ltb (String.length s) 2 then "0" ++ s else s.

(** A decimal digit. *)
Definition digit_of (c : ascii) : option Z :=
  let n := nat_of_ascii c in
  if (Nat.leb 48 n && Nat.leb n 57)%bool then Some (Z.of_nat (n - 48)) else None.

(** [strconv.Atoi(s)] is [ParseInt(s, 10, 0)] with the error renamed; its
    fast path for short strings returns what [ParseInt] returns.  The error
    is a [*NumError] that keeps the input and says whether the syntax or the
    range was at fault. *)
Inductive ErrKind : Type := ErrSyntax | ErrRange.

Record NumError : Type := mkNumError {
  Num : string;
  Kind : ErrKind
}.

Definition maxUint64 : Z := 2 ^ 64 - 1.

(** The loop of [strconv.ParseUint(s, 10, 64)], [n] being the value so far:
    a byte that is no decimal digit is a syntax error; the value [maxUint64]
    and a range error are returned as soon as the next digit does not fit. *)
Fixpoint ParseUint_loop (s : string) (n : Z) : Z * option ErrKind :=
  match s with
  | EmptyString => (n, None)
  | String c s' =>
      match digit_of c with
      | None => (0, Some ErrSyntax)
      | Some d =>
          if n >=? maxUint64 / 10 + 1 then (maxUint64, Some ErrRange)
          else
            let n1 := n * 10 + d in
            if n1 >? maxUint64 then (maxUint64, Some ErrRange)
            else ParseUint_loop s' n1
      end
  end.

Definition ParseUint (s : string) : Z * option ErrKind :=
  match s with
  | EmptyString => (0, Some ErrSyntax)
  | _ => ParseUint_loop s 0
  end.

(** [strconv.ParseInt(s, 10, 64)]. *)
Definition ParseInt (s : string) : Z * option ErrKind :=
  match s with
  | EmptyString => (0, Some ErrSyntax)
  | String c s' =>
      let neg := Ascii.eqb c "-" in
      let body := if Ascii.eqb c "+" || neg then s' else s in
      match ParseUint body with
      | (_, Some ErrSyntax) => (0, Some ErrSyntax)
      | (un, _) =>
          if negb neg && (un >=? 2 ^ 63) then (2 ^ 63 - 1, Some ErrRange)
          else if neg && (un >? 2 ^ 63) then (- 2 ^ 63, Some ErrRange)
          else (if neg then - un else un, None)
      end
  end.

(** [strconv.Atoi], returning the value and the error. *)
Definition strconv_Atoi (s : string) : Z * option NumError :=
  let (n, err) := ParseInt s in (n, option_map (mkNumError s) err).

(** [strconv.Atoi] with its error dropped ([y, _ := strconv.Atoi(s)]): the
    value that comes with the error is kept, [0] with a syntax error and
    the nearest bound of a 64-bit [int] with a range error. *)
Definition Atoi (s : string) : Z := fst (strconv_Atoi s).

(** The number that a string of decimal digits with an optional sign
    denotes, whatever its size. *)
Fixpoint digits (s : string) (acc : Z) : option Z :=
  match s with
  | EmptyString => Some acc
  | String c s' =>
      match digit_of c with
      | Some v => digits s' (acc * 10 + v)
      | None => None
      end
  end.

Definition unsigned_digits (s : string) : option Z :=
  match s with
  | EmptyString => None
  | _ => digits s 0
  end.

Definition parse_int (s : string) : option Z :=
  match s with
  | String "+" s' => unsigned_digits s'
  | String "-" s' => option_map Z.opp (unsigned_digits s')
  | _ => unsigned_digits s
  end.

Definition max_int : Z := 2 ^ 63 - 1.
Definition min_int : Z := - 2 ^ 63.

(** The conversion [float64(n)] of an [int], for [|n| < 2^63]. *)
Definition float64 (n : Z) : float :=
  if n <? 0 then PrimFloat.opp (PrimFloat.of_uint63 (Uint63.of_Z (- n)))
  else PrimFloat.of_uint63 (Uint63.of_Z n).

(** A [map[string]V], as the sequence of entries that [range] yields. *)
Definition map (V : Type) : Type := list (string * V).

(** [v, exists := m[k]] *)
Fixpoint index {V : Type} (m : map V) (k : string) : option V :=
  match m with
  | [] => None
  | (k', v) :: m' => if String.eqb k' k then Some v else index m' k
  end.

Definition keys {V : Type} (m : map V) : list string := List.map fst m.
Definition values {V : Type} (m : map V) : list V := List.map snd m.

(** The order of one [for ... := range m] over a map of rates: the entries
    of [m] as the loop visits them.  The runtime chooses it when the loop
    starts; [storedOrder] visits the entries as the table lists them,
    [rotated k] starts at the entry of index [k] and wraps around, as the
    runtime does on a small map. *)
Definition order : Type := map float -> map float.

Definition storedOrder : order := fun m => m.

Definition rotated (k : nat) : order :=
  fun m => (skipn k m ++ firstn k m)%list.

End GoLib.

Import GoLib.

(** ** data.go: the rate table *)

(** [type Country struct] *)
Record Country : Type := mkCountry {
  Name : string;
  Aliases : list string;
  Code : string;
  BaseYear : Z;
  Inflation : map (map float)    (* Year -> Month -> Rate *)
}.

(** [type Data struct] *)
Record Data : Type := mkData {
  Countries : list Country
}.

(** ** Errors

    Every error of [inflation.go] is built by [fmt.Errorf]; a constructor
    stands for one format string and carries the arguments passed to it.
    [Error] renders the message, as [err.Error()] does. *)

Inductive error : Type :=
| CountryNotFound (query : string)
| YearNotFound (year : Z) (country : string)
| NoMonthlyData (year : Z) (country : string)
| MonthNotFound (year month : Z) (country : string)
| InvalidMonth (month : Z)
| BaseYearNotSet (country : string)
| BaseYearFetch (cause : error)
| TargetFetch (cause : error).

Fixpoint Error (e : error) : string :=
  match e with
  | CountryNotFound query =>
      "country '" ++ query ++ "' not found"
  | YearNotFound year country =>
      "inflation data for year " ++ Sprintf_d year
        ++ " not found for country '" ++ country ++ "'"
  | NoMonthlyData year country =>
      "no monthly data available for year " ++ Sprintf_d year
        ++ " in country '" ++ country ++ "'"
  | MonthNotFound year month country =>
      "inflation data for " ++ Sprintf_d year ++ "-" ++ Sprintf_02d month
        ++ " not found for country '" ++ country ++ "'"
  | InvalidMonth month =>
      "invalid month: " ++ Sprintf_d month
  | BaseYearNotSet country =>
      "base year not set for country '" ++ country ++ "'"
  | BaseYearFetch cause =>
      "error fetching BaseYear inflation rate: " ++ Error cause
  | TargetFetch cause =>
      "error fetching target inflation rate: " ++ Error cause
  end.

(** ** The monad of the methods on [*Data] *)

Inductive result (A : Type) : Type :=
| Ok (a : A)
| Err (e : error).
Arguments Ok {A} a.
Arguments Err {A} e.

(** A method reads (and could write) the table behind its receiver and
    returns a value or an error. *)
Definition M (A : Type) : Type := Data -> Data * result A.

Definition ret {A : Type} (a : A) : M A := fun d => (d, Ok a).

Definition throw {A : Type} (e : error) : M A := fun d => (d, Err e).

Definition bind {A B : Type} (m : M A) (k : A -> M B) : M B :=
  fun d =>
    match m d with
    | (d', Ok a) => k a d'
    | (d', Err e) => (d', Err e)
    end.

(** [d.Countries] *)
Definition readCountries : M (list Country) := fun d => (d, Ok (Countries d)).

(** [if err != nil { return 0, fmt.Errorf("...: %v", err) }] *)
Definition wrap {A : Type} (f : error -> error) (m : M A) : M A :=
  fun d =>
    match m d with
    | (d', Ok a) => (d', Ok a)
    | (d', Err e) => (d', Err (f e))
    end.

Notation "x <- m ;; k" := (bind m (fun x => k))
  (at level 61, m at next level, right associativity).

(** The value or error a call returns, and the table it leaves behind. *)
Definition eval {A : Type} (m : M A) (d : Data) : result A := snd (m d).
Definition exec {A : Type} (m : M A) (d : Data) : Data := fst (m d).

(** ** inflation.go *)

Section Inflation.

(** [strings.ToLower].  Its Unicode case tables belong to the Go runtime, so
    the code is read for an arbitrary lower-casing function; [ToLowerASCII]
    is the instance that agrees with Go on ASCII strings. *)
Variable ToLower : string -> string.

(** The test of one iteration of the loop of [GetCountry]: name or code
    first, then the aliases in order. *)
Definition matches (query : string) (country : Country) : bool :=
  (String.eqb (ToLower (Name country)) query
   || String.eqb (ToLower (Code country)) query)
  || existsb (fun alias => String.eqb (ToLower alias) query) (Aliases country).

(** [for i, country := range d.Countries { ... return &d.Countries[i], nil }]
    from index [i] on.  The pointer [&d.Countries[i]] is the index together
    with the element it points to. *)
Fixpoint scan (query : string) (i : nat) (countries : list Country)
  : option (nat * Country) :=
  match countries with
  | [] => None
  | country :: rest =>
      if matches query country then Some (i, country)
      else scan query (S i) rest
  end.

(** [func (d *Data) GetCountry(query string)], returning a pointer to a
    [Country] and an [error]. *)
Definition GetCountry (query : string) : M (nat * Country) :=
  let query := ToLower query in
  countries <- readCountries ;;
  match scan query 0 countries with
  | Some p => ret p
  | None => throw (CountryNotFound query)
  end.

(** The loop [for _, rate := range yearData { sum += rate; count++ }]. *)
Definition accumulate (acc : float * Z) (entry : string * float) : float * Z :=
  (PrimFloat.add (fst acc) (snd entry), snd acc + 1).

(** [func (d *Data) YearInflation(country string, year int, month int)
    (float64, error)] *)
Definition YearInflation (country : string) (year month : Z) : M float :=
  c <- GetCountry country ;;
  let yearStr := Sprintf_d year in
  match index (Inflation (snd c)) yearStr with
  | None => throw (YearNotFound year country)
  | Some yearData =>
      if month =? 0 then
        let (sum, count) := fold_left accumulate yearData (0%float, 0) in
        if count =? 0 then throw (NoMonthlyData year country)
        else ret (PrimFloat.div sum (float64 count))
      else if (1 <=? month) && (month <=? 12) then
        let monthStr := Sprintf_02d month in
        match index yearData monthStr with
        | None => throw (MonthNotFound year month country)
        | Some rate => ret rate
        end
      else throw (InvalidMonth month)
  end.

(** A call of [YearInflation] whose averaging loop visits the months of
    the year in the order [visit]; [YearInflation] above is the call with
    [storedOrder].  The order plays a part for month 0 only: a month from 1
    to 12 is looked up. *)
Definition YearInflationIn (visit : order) (country : string)
    (year month : Z) : M float :=
  c <- GetCountry country ;;
  let yearStr := Sprintf_d year in
  match index (Inflation (snd c)) yearStr with
  | None => throw (YearNotFound year country)
  | Some yearData =>
      if month =? 0 then
        let (sum, count) := fold_left accumulate (visit yearData) (0%float, 0) in
        if count =? 0 then throw (NoMonthlyData year country)
        else ret (PrimFloat.div sum (float64 count))
      else if (1 <=? month) && (month <=? 12) then
        let monthStr := Sprintf_02d month in
        match index yearData monthStr with
        | None => throw (MonthNotFound year month country)
        | Some rate => ret rate
        end
      else throw (InvalidMonth month)
  end.

(** [func (d *Data) CompareInflation(country string, fromYear, fromMonth int,
    toYear, toMonth int, price float64) (float64, float64, error)].  The
    call runs [YearInflation] twice; [fromOrder] and [toOrder] are the
    orders of the averaging loops of the first and of the second run. *)
Definition CompareInflation (fromOrder toOrder : order) (country : string)
    (fromYear fromMonth : Z) (toYear toMonth : Z) (price : float)
  : M (float * float) :=
  fromRate <- YearInflationIn fromOrder country fromYear fromMonth ;;
  toRate <- YearInflationIn toOrder country toYear toMonth ;;
  let inflationFactor := PrimFloat.div toRate fromRate in
  let newPrice := PrimFloat.mul price inflationFactor in
  let cumulativeRate :=
    PrimFloat.mul (PrimFloat.sub inflationFactor 1%float) 100%float in
  ret (newPrice, cumulativeRate).

(** [func (d *Data) CompareInflationWithBaseYear(country string, targetYear,
    targetMonth int, price float64) (float64, error)].  [baseOrder] and
    [targetOrder] are the orders of the averaging loops of its two runs of
    [YearInflation]. *)
Definition CompareInflationWithBaseYear (baseOrder targetOrder : order)
    (country : string) (targetYear targetMonth : Z) (price : float) : M float :=
  c <- GetCountry country ;;
  let baseYear := BaseYear (snd c) in
  if baseYear =? 0 then throw (BaseYearNotSet country)
  else
    baseRate <- wrap BaseYearFetch (YearInflationIn baseOrder country baseYear 0) ;;
    targetRate <- wrap TargetFetch
                    (YearInflationIn targetOrder country targetYear targetMonth) ;;
    let inflationFactor := PrimFloat.div targetRate baseRate in
    let newPrice := PrimFloat.mul price inflationFactor in
    ret newPrice.

End Inflation.

(** The methods on [*Country] only read their receiver and cannot fail. *)

(** [func (c *Country) GetAvailableYears() []int] *)
Definition GetAvailableYears (c : Country) : list Z :=
  List.map Atoi (keys (Inflation c)).

(** The inner loop of [GetFirstDate]: [month] is the variable the loop
    updates, [monthStr] the key. *)
Definition firstMonth (month : Z) (monthStr : string) : Z :=
  let m := Atoi monthStr in
  if (month =? 0) || (m <? month) then m else month.

(** One iteration of the outer loop of [GetFirstDate] on the named results
    [(year, month)]. *)
Definition firstYear (acc : Z * Z) (entry : string * map float) : Z * Z :=
  let (year, month) := acc in
  let y := Atoi (fst entry) in
  if (year =? 0) || (y <? year)
  then (y, fold_left firstMonth (keys (snd entry)) month)
  else (year, month).

(** [func (c *Country) GetFirstDate() (year int, month int)] *)
Definition GetFirstDate (c : Country) : Z * Z :=
  fold_left firstYear (Inflation c) (0, 0).

Definition lastMonth (month : Z) (monthStr : string) : Z :=
  let m := Atoi monthStr in
  if m >? month then m else month.

Definition lastYear (acc : Z * Z) (entry : string * map float) : Z * Z :=
  let (year, month) := acc in
  let y := Atoi (fst entry) in
  if y >? year
  then (y, fold_left lastMonth (keys (snd entry)) month)
  else (year, month).

(** [func (c *Country) GetLastDate() (year int, month int)] *)
Definition GetLastDate (c : Country) : Z * Z :=
  fold_left lastYear (Inflation c) (0, 0).

(** ** main.go: parseDate *)

(** [strings.Split(s, "-")]: the pieces of [s] between the dashes; one piece
    more than there are dashes. *)
Fixpoint Split (s : string) : list string :=
  match s with
  | EmptyString => [EmptyString]
  | String c s' =>
      if Ascii.eqb c "-" then EmptyString :: Split s'
      else
        match Split s' with
        | piece :: pieces => String c piece :: pieces
        | [] => [String c EmptyString]
        end
  end.

(** The errors of [parseDate]: the error of [Atoi] as it is, or one of the
    three messages built with [fmt.Errorf]; the last carries the error of
    [Atoi], which is [nil] when the month was read but is out of range. *)
Inductive dateError : Type :=
| AtoiError (err : NumError)
| InvalidDateFormat (dateStr : string)
| InvalidYearInDate (err : NumError)
| InvalidMonthInDate (err : option NumError).

(** [func parseDate(dateStr string) (int, int, error)] *)
Definition parseDate (dateStr : string) : dateError + Z * Z :=
  if Nat.eqb (String.length dateStr) 4 then
    match strconv_Atoi dateStr with
    | (_, Some err) => inl (AtoiError err)
    | (year, None) => inr (year, 0)
    end
  else if Nat.eqb (String.length dateStr) 7 then
    match Split dateStr with
    | [yearStr; monthStr] =>
        match strconv_Atoi yearStr with
        | (_, Some err) => inl (InvalidYearInDate err)
        | (year, None) =>
            let (month, err) := strconv_Atoi monthStr in
            match err with
            | Some _ => inl (InvalidMonthInDate err)
            | None =>
                if (month <? 1) || (month >? 12)
                then inl (InvalidMonthInDate err)
                else inr (year, month)
            end
        end
    | _ => inl (InvalidDateFormat dateStr)
    end
  else inl (InvalidDateFormat dateStr).

(** ** main.go: the import command

    The two steps of the command that change the table, without the reading
    of the files and the messages printed: finding or creating the country,
    and storing one rate.  [c] in the source is a pointer into
    [loader.Data.Countries]; here it is the index, and a write through the
    pointer replaces the element at that index. *)

(** [l[i] = a] *)
Fixpoint store {A : Type} (i : nat) (a : A) (l : list A) : list A :=
  match l, i with
  | [], _ => []
  | _ :: l', O => a :: l'
  | b :: l', S i' => b :: store i' a l'
  end.

(** [m[k] = v]: the value of an existing key is replaced; a new key becomes
    one more entry (its place in the iteration is not specified by Go; it is
    put last). *)
Fixpoint assign {V : Type} (m : map V) (k : string) (v : V) : map V :=
  match m with
  | [] => [(k, v)]
  | (k', v') :: m' =>
      if String.eqb k' k then (k', v) :: m' else (k', v') :: assign m' k v
  end.

(** [loader.Data.Countries = append(loader.Data.Countries, newCountry)] *)
Definition appendCountry (newCountry : Country) : M unit :=
  fun d => ({| Countries := Countries d ++ [newCountry] |}, Ok tt).

(** A write to the country behind the pointer [&d.Countries[i]]. *)
Definition writeCountry (i : nat) (c : Country) : M unit :=
  fun d => ({| Countries := store i c (Countries d) |}, Ok tt).

(** [c.BaseYear = baseYear] *)
Definition withBaseYear (c : Country) (baseYear : Z) : Country :=
  {| Name := Name c; Aliases := Aliases c; Code := Code c;
     BaseYear := baseYear; Inflation := Inflation c |}.

(** [c.Inflation = inflation] *)
Definition withInflation (c : Country) (inflation : map (map float)) : Country :=
  {| Name := Name c; Aliases := Aliases c; Code := Code c;
     BaseYear := BaseYear c; Inflation := inflation |}.

Section ImportCommand.

Variable ToLower : string -> string.

(** Lines 196 to 218: find the country; when it is not found, append a new
    one named after the query and find it again ([log.Fatalf] on a second
    failure is the error returned here); when it is found with base year 0,
    set its base year. *)
Definition importCountry (country : string) (baseYear : Z) : M (nat * Country) :=
  fun d =>
    match GetCountry ToLower country d with
    | (d1, Err _) =>
        let newCountry :=
          {| Name := country; Aliases := []; Code := country;
             BaseYear := baseYear; Inflation := [] |} in
        (_ <- appendCountry newCountry ;; GetCountry ToLower country) d1
    | (d1, Ok (i, c)) =>
        if BaseYear c =? 0 then
          (_ <- writeCountry i (withBaseYear c baseYear) ;;
           ret (i, withBaseYear c baseYear)) d1
        else (d1, Ok (i, c))
    end.

End ImportCommand.

(** Lines 292 to 301, on the country [c] points to: make sure the year has
    a map of months, then store the rate under the month.  The second
    lookup of the year cannot fail. *)
Definition setRate (c : Country) (yearStr monthStr : string) (value : float)
  : Country :=
  let inflation :=
    match index (Inflation c) yearStr with
    | Some _ => Inflation c
    | None => assign (Inflation c) yearStr []
    end in
  match index inflation yearStr with
  | Some months =>
      withInflation c (assign inflation yearStr (assign months monthStr value))
  | None => withInflation c inflation
  end.

(** Lines 279 to 302 for one record whose date and value have been read:
    the keys are printed with [%d] and [%02d] and the rate is stored through
    the pointer [&d.Countries[i]]. *)
Definition importRate (i : nat) (year month : Z) (value : float) : M unit :=
  fun d =>
    match nth_error (Countries d) i with
    | Some c =>
        writeCountry i (setRate c (Sprintf_d year) (Sprintf_02d month) value) d
    | None => (d, Ok tt)
    end.

(** ** inflation_test.go: the table of [createTestData] *)

Module TestData.

Definition months (r1 r2 r3 r4 r5 r6 r7 r8 r9 r10 r11 r12 : float) : map float :=
  [("01", r1); ("02", r2); ("03", r3); ("04", r4); ("05", r5); ("06", r6);
   ("07", r7); ("08", r8); ("09", r9); ("10", r10); ("11", r11); ("12", r12)].

Definition UnitedStates : Country :=
  {| Name := "United States";
     Aliases := ["US"; "USA"];
     Code := "US";
     BaseYear := 2015;
     Inflation :=
       [("2015", months 0.1 0.2 0.3 0.2 0.1 0.3 0.2 0.1 0.3 0.2 0.1 0.3);
        ("2018", months 0.2 0.3 0.4 0.3 0.2 0.4 0.3 0.2 0.4 0.3 0.2 0.4);
        ("2016", months 0.15 0.25 0.35 0.25 0.15 0.35 0.25 0.15 0.35 0.25 0.15 0.35)]
  |}.

Definition Germany : Country :=
  {| Name := "Germany";
     Aliases := ["DE"; "GER"];
     Code := "DE";
     BaseYear := 2015;
     Inflation :=
       [("2015", months 0.05 0.07 0.06 0.08 0.07 0.09 0.06 0.05 0.07 0.06 0.05 0.07);
        ("2018", months 0.1 0.12 0.11 0.13 0.12 0.14 0.11 0.1 0.12 0.11 0.1 0.12)]
  |}.

(** The country that [TestCompareInflationWithBaseYear] appends. *)
Definition Spain : Country :=
  {| Name := "Spain";
     Aliases := ["ES"];
     Code := "ES";
     BaseYear := 0;
     Inflation := []
  |}.

Definition createTestData : Data :=
  {| Countries := [UnitedStates; Germany] |}.

Definition withSpain : Data :=
  {| Countries := Countries createTestData ++ [Spain] |}.

End TestData.

(** ** Tables with a zero rate and with gaps *)

Module ZeroRate.

(** January 2000 has rate zero, and so has the average of the base year. *)
Definition Zedland : Country :=
  {| Name := "Zedland";
     Aliases := [];
     Code := "ZD";
     BaseYear := 2000;
     Inflation :=
       [("2000", [("01", 0%float)]);
        ("2001", [("01", 0.3%float); ("02", 0%float)])]
  |}.

Definition table : Data := {| Countries := [Zedland] |}.

End ZeroRate.

Module Gaps.

(** Three years, none of them complete, visited by [range] in the order
    2016, 2015, 2018. *)
Definition Gapland : Country :=
  {| Name := "Gapland";
     Aliases := [];
     Code := "GP";
     BaseYear := 0;
     Inflation :=
       [("2016", [("01", 0.1%float); ("12", 0.2%float)]);
        ("2015", [("03", 0.3%float)]);
        ("2018", [("06", 0.4%float)])]
  |}.

(** December 2015 and January 2017, with the two years visited in either
    order. *)
Definition Ascending : Country :=
  {| Name := "Twoyears";
     Aliases := [];
     Code := "TY";
     BaseYear := 0;
     Inflation := [("2015", [("12", 0.1%float)]); ("2017", [("01", 0.2%float)])]
  |}.

Definition Descending : Country :=
  {| Name := "Twoyears";
     Aliases := [];
     Code := "TY";
     BaseYear := 0;
     Inflation := [("2017", [("01", 0.2%float)]); ("2015", [("12", 0.1%float)])]
  |}.

(** A year that is in the table without any month. *)
Definition Emptyland : Country :=
  {| Name := "Emptyland";
     Aliases := [];
     Code := "EM";
     BaseYear := 0;
     Inflation := [("2020", [])]
  |}.

Definition table : Data := {| Countries := [Gapland; Emptyland] |}.



End Gaps.

(** ** Notions used to state the properties *)

(** A computation is read-only when it hands back the table it was given. *)
Definition readonly {A : Type} (m : M A) : Prop :=
  forall d : Data, exec m d = d.

(** An order that a [range] can take: it visits every entry of the map
    once. *)
Definition faithful (visit : order) : Prop :=
  forall m : map float, Permutation (visit m) m.

(** The arithmetic mean of a sequence of rates in [float64] arithmetic: the
    sum, taken from left to right starting at zero, over the number of
    rates. *)
Definition mean (rates : list float) : float :=
  PrimFloat.div (fold_left PrimFloat.add rates 0%float)
                (float64 (Z.of_nat (List.length rates))).

(** The dates of the table of a country, as the key strings read with
    [strconv.Atoi]: one pair for every month entry of every year. *)
Definition dates (c : Country) : list (Z * Z) :=
  flat_map
    (fun entry => List.map (fun monthStr => (Atoi (fst entry), Atoi monthStr))
                           (keys (snd entry)))
    (Inflation c).

(** Dates are ordered by year, then by month. *)
Definition date_ltb (a b : Z * Z) : bool :=
  (fst a <? fst b) || ((fst a =? fst b) && (snd a <? snd b)).

(** The earliest and the latest of a list of dates, if there is one. *)
Definition earliest (l : list (Z * Z)) : option (Z * Z) :=
  match l with
  | [] => None
  | a :: l' => Some (fold_left (fun m b => if date_ltb b m then b else m) l' a)
  end.

Definition latest (l : list (Z * Z)) : option (Z * Z) :=
  match l with
  | [] => None
  | a :: l' => Some (fold_left (fun m b => if date_ltb m b then b else m) l' a)
  end.


Section Matching.

Variable ToLower : string -> string.

(** Two strings are equal up to case. *)
Definition ieq (a b : string) : Prop := ToLower a = ToLower b.

(** The query is equal up to case to the name, the code or an alias of the
    country. *)
Definition refers (q : string) (c : Country) : Prop :=
  ieq q (Name c) \/ ieq q (Code c) \/ exists a, In a (Aliases c) /\ ieq q a.

End Matching.

(** The year of an entry of the table of a country, as [GetFirstDate],
    [GetLastDate] and [GetAvailableYears] read its key. *)
Definition yearOf (entry : string * map float) : Z := Atoi (fst entry).

(** Every year key reads as a positive number. *)
Definition positive_years (c : Country) : Prop :=
  forall entry, In entry (Inflation c) -> 0 < yearOf entry.

(** Every month key reads as a positive number. *)
Definition positive_months (c : Country) : Prop :=
  forall entry k,
    In entry (Inflation c) -> In k (keys (snd entry)) -> 0 < Atoi k.

(** No two year keys read as the same number. *)
Definition distinct_years (c : Country) : Prop :=
  NoDup (GetAvailableYears c).

(** Two countries answer to the same queries: they have the same name,
    code and aliases. *)
Definition same_identity (c c' : Country) : Prop :=
  Name c = Name c' /\ Code c = Code c' /\ Aliases c = Aliases c'.

(** The string contains no dash. *)
Fixpoint nodash (s : string) : bool :=
  match s with
  | EmptyString => true
  | String c s' => negb (Ascii.eqb c "-") && nodash s'
  end.

(** What [%02d] prints for [n] has two characters, no dash, and reads back
    as [n]. *)
Definition month_key_ok (n : nat) : bool :=
  let m := Z.of_nat n in
  let s := Sprintf_02d m in
  Nat.eqb (String.length s) 2 && nodash s
  && match strconv_Atoi s with
     | (v, None) => v =? m
     | _ => false
     end.

(** The keys that [fmt.Sprintf("%02d", month)] produces for the months 1
    to 12. *)
Definition monthKeys : list string :=
  ["01"; "02"; "03"; "04"; "05"; "06"; "07"; "08"; "09"; "10"; "11"; "12"].

(** ** Reading the table: frame lemmas *)

Create HintDb frame discriminated.

Lemma readonly_ret {A : Type} (a : A) : readonly (ret a).
Proof. intro d; reflexivity. Qed.

Lemma readonly_throw {A : Type} (e : error) : readonly (@throw A e).
Proof. intro d; reflexivity. Qed.

Lemma readonly_readCountries : readonly readCountries.
Proof. intro d; reflexivity. Qed.

Lemma readonly_bind {A B : Type} (m : M A) (k : A -> M B) :
  readonly m -> (forall a, readonly (k a)) -> readonly (bind m k).
Proof.
  intros Hm Hk d. unfold exec, bind.
  specialize (Hm d). unfold exec in Hm.
  destruct (m d) as [d' [a | e]]; simpl in *; subst d'.
  - apply Hk.
  - reflexivity.
Qed.

Lemma readonly_wrap {A : Type} (f : error -> error) (m : M A) :
  readonly m -> readonly (wrap f m).
Proof.
  intros Hm d. unfold exec, wrap.
  specialize (Hm d). unfold exec in Hm.
  destruct (m d) as [d' [a | e]]; simpl in *; assumption.
Qed.

#[export] Hint Resolve readonly_ret readonly_throw readonly_readCountries
  readonly_bind readonly_wrap : frame.

(** What a sequence of two calls returns when the first one is read-only. *)
Lemma eval_bind {A B : Type} (m : M A) (k : A -> M B) (d : Data) :
  readonly m ->
  eval (bind m k) d =
    match eval m d with
    | Ok a => eval (k a) d
    | Err e => Err e
    end.
Proof.
  intros Hm. specialize (Hm d). unfold exec in Hm. unfold eval, bind.
  destruct (m d) as [d' [a | e]]; simpl in *; subst d'; reflexivity.
Qed.

Lemma eval_wrap {A : Type} (f : error -> error) (m : M A) (d : Data) :
  eval (wrap f m) d =
    match eval m d with
    | Ok a => Ok a
    | Err e => Err (f e)
    end.
Proof.
  unfold eval, wrap. destruct (m d) as [d' [a | e]]; reflexivity.
Qed.

Section Frame.

Variable ToLower : string -> string.

Lemma GetCountry_readonly (query : string) :
  readonly (GetCountry ToLower query).
Proof.
  unfold GetCountry. apply readonly_bind; auto with frame.
  intros countries. destruct (scan _ _ _ _); auto with frame.
Qed.

Lemma YearInflation_readonly (country : string) (year month : Z) :
  readonly (YearInflation ToLower country year month).
Proof.
  unfold YearInflation.
  apply readonly_bind; [apply GetCountry_readonly |].
  intros c. destruct (index _ _) as [yearData |]; auto with frame.
  destruct (month =? 0).
  - destruct (fold_left _ _ _) as [sum count].
    destruct (count =? 0); auto with frame.
  - destruct (_ && _); auto with frame.
    destruct (index _ _); auto with frame.
Qed.

Lemma YearInflationIn_readonly (visit : order) (country : string)
    (year month : Z) :
  readonly (YearInflationIn ToLower visit country year month).
Proof.
  unfold YearInflationIn.
  apply readonly_bind; [apply GetCountry_readonly |].
  intros c. destruct (index _ _) as [yearData |]; auto with frame.
  destruct (month =? 0).
  - destruct (fold_left _ _ _) as [sum count].
    destruct (count =? 0); auto with frame.
  - destruct (_ && _); auto with frame.
    destruct (index _ _); auto with frame.
Qed.

Lemma CompareInflation_readonly (fromOrder toOrder : order) (country : string)
    (fromYear fromMonth toYear toMonth : Z) (price : float) :
  readonly (CompareInflation ToLower fromOrder toOrder country
              fromYear fromMonth toYear toMonth price).
Proof.
  unfold CompareInflation.
  apply readonly_bind; [apply YearInflationIn_readonly | intros fromRate].
  apply readonly_bind; [apply YearInflationIn_readonly | intros toRate].
  auto with frame.
Qed.

Lemma CompareInflationWithBaseYear_readonly (baseOrder targetOrder : order)
    (country : string) (targetYear targetMonth : Z) (price : float) :
  readonly (CompareInflationWithBaseYear ToLower baseOrder targetOrder country
              targetYear targetMonth price).
Proof.
  unfold CompareInflationWithBaseYear.
  apply readonly_bind; [apply GetCountry_readonly | intros c].
  destruct (_ =? 0); auto with frame.
  apply readonly_bind;
    [apply readonly_wrap, YearInflationIn_readonly | intros baseRate].
  apply readonly_bind;
    [apply readonly_wrap, YearInflationIn_readonly | intros targetRate].
  auto with frame.
Qed.

(** C10.  Country resolution, get-rate, the two-date comparison and the
    base-year comparison leave the rate table as they found it: for every
    table and all arguments, in whatever order the averaging loops visit
    the months, whether the call succeeds or fails, the table after the
    call is the table before it. *)
Theorem queries_leave_table_unchanged (d : Data) (query : string)
    (y1 m1 y2 m2 : Z) (price : float) (visit visit' : order) :
  exec (GetCountry ToLower query) d = d
  /\ exec (YearInflation ToLower query y1 m1) d = d
  /\ exec (YearInflationIn ToLower visit query y1 m1) d = d
  /\ exec (CompareInflation ToLower visit visit' query y1 m1 y2 m2 price) d = d
  /\ exec (CompareInflationWithBaseYear ToLower visit visit' query y1 m1 price) d
       = d.
Proof.
  repeat split.
  - apply GetCountry_readonly.
  - apply YearInflation_readonly.
  - apply YearInflationIn_readonly.
  - apply CompareInflation_readonly.
  - apply CompareInflationWithBaseYear_readonly.
Qed.

End Frame.

(** ** Country resolution *)

Section Resolution.

Variable ToLower : string -> string.

Lemma matches_refers (q : string) (c : Country) :
  matches ToLower (ToLower q) c = true <-> refers ToLower q c.
Proof.
  unfold matches, refers, ieq.
  rewrite !orb_true_iff, existsb_exists, !String.eqb_eq.
  split.
  - intros [[H | H] | [a [Ha H]]].
    + left; congruence.
    + right; left; congruence.
    + right; right. exists a. apply String.eqb_eq in H. split; congruence.
  - intros [H | [H | [a [Ha H]]]].
    + left; left; congruence.
    + left; right; congruence.
    + right. exists a. rewrite String.eqb_eq. split; congruence.
Qed.

Lemma matches_not_refers (q : string) (c : Country) :
  matches ToLower (ToLower q) c = false <-> ~ refers ToLower q c.
Proof.
  rewrite <- matches_refers. destruct (matches _ _ _); split; intros H.
  - discriminate.
  - exfalso; apply H; reflexivity.
  - intros H'; discriminate.
  - reflexivity.
Qed.

(** The loop stops at the first country that matches. *)
Lemma scan_first (query : string) (before : list Country) (c : Country)
    (after : list Country) (i : nat) :
  (forall c', In c' before -> matches ToLower query c' = false) ->
  matches ToLower query c = true ->
  scan ToLower query i (before ++ c :: after)%list = Some ((i + List.length before)%nat, c).
Proof.
  revert i. induction before as [| c0 before IH]; intros i Hbefore Hc; simpl.
  - rewrite Hc. f_equal. f_equal. lia.
  - rewrite (Hbefore c0 (or_introl eq_refl)).
    rewrite IH by (intros; auto using in_cons).
    f_equal. f_equal. lia.
Qed.

(** The loop runs off the end when no country matches. *)
Lemma scan_none (query : string) (countries : list Country) (i : nat) :
  (forall c, In c countries -> matches ToLower query c = false) ->
  scan ToLower query i countries = None.
Proof.
  revert i. induction countries as [| c0 countries IH]; intros i H; simpl.
  - reflexivity.
  - rewrite (H c0 (or_introl eq_refl)). apply IH. intros; auto using in_cons.
Qed.

(** What the loop found is in the table at the index returned, matches, and
    nothing before it matches. *)
Lemma scan_some (query : string) (countries : list Country) (i j : nat)
    (c : Country) :
  scan ToLower query i countries = Some (j, c) ->
  exists before after,
    countries = (before ++ c :: after)%list
    /\ j = (i + List.length before)%nat
    /\ matches ToLower query c = true
    /\ (forall c', In c' before -> matches ToLower query c' = false).
Proof.
  revert i. induction countries as [| c0 countries IH]; intros i H; simpl in H.
  - discriminate.
  - destruct (matches ToLower query c0) eqn:Hm.
    + injection H as <- <-. exists [], countries. simpl.
      repeat split; auto; try lia; intros c' [].
    + destruct (IH _ H) as (before & after & -> & -> & Hc & Hb).
      exists (c0 :: before), after. simpl. repeat split; auto; try lia.
      intros c' [<- | Hin]; auto.
Qed.

Lemma eval_GetCountry (query : string) (d : Data) :
  eval (GetCountry ToLower query) d =
    match scan ToLower (ToLower query) 0 (Countries d) with
    | Some p => Ok p
    | None => Err (CountryNotFound (ToLower query))
    end.
Proof.
  unfold GetCountry, eval, bind, readCountries.
  destruct (scan _ _ _ _); reflexivity.
Qed.

(** C4.  When the query is equal up to case to the name, the code or an
    alias of a country of the table, and to none of those of any country
    placed before it, resolution returns that country (a pointer to its
    place in the table): the scan goes in table order and the first match
    wins. *)
Theorem GetCountry_first_match (d : Data) (q : string)
    (before : list Country) (c : Country) (after : list Country) :
  Countries d = (before ++ c :: after)%list ->
  refers ToLower q c ->
  (forall c', In c' before -> ~ refers ToLower q c') ->
  eval (GetCountry ToLower q) d = Ok (List.length before, c).
Proof.
  intros Hd Hc Hbefore.
  rewrite eval_GetCountry, Hd.
  rewrite (scan_first (ToLower q) before c after 0).
  - reflexivity.
  - intros c' Hin. apply matches_not_refers. auto.
  - apply matches_refers. assumption.
Qed.

(** When nothing in the table matches, the error is built from the
    variable [query] after it has been overwritten with its lower-case
    form. *)
Lemma GetCountry_not_found (d : Data) (q : string) :
  (forall c, In c (Countries d) -> ~ refers ToLower q c) ->
  eval (GetCountry ToLower q) d = Err (CountryNotFound (ToLower q)).
Proof.
  intros H. rewrite eval_GetCountry, scan_none; [reflexivity |].
  intros c Hin. apply matches_not_refers. auto.
Qed.

(** A successful resolution returns the first country of the table that
    the query refers to. *)
Lemma GetCountry_found (d : Data) (q : string) (i : nat) (c : Country) :
  eval (GetCountry ToLower q) d = Ok (i, c) ->
  exists before after,
    Countries d = (before ++ c :: after)%list
    /\ i = List.length before
    /\ refers ToLower q c
    /\ (forall c', In c' before -> ~ refers ToLower q c').
Proof.
  rewrite eval_GetCountry.
  destruct (scan _ _ _ _) as [[j c0] |] eqn:Hscan; [| discriminate].
  intros [= -> ->].
  destruct (scan_some _ _ _ _ _ Hscan) as (before & after & Hd & Hj & Hc & Hb).
  exists before, after. repeat split; auto.
  - apply matches_refers; assumption.
  - intros c' Hin. apply matches_not_refers. auto.
Qed.

End Resolution.

(** ** Rates *)

(** The averaging loop adds the rates in the order of the iteration and
    counts the entries. *)
Lemma fold_accumulate (yearData : map float) (sum : float) (count : Z) :
  fold_left accumulate yearData (sum, count) =
    (fold_left PrimFloat.add (values yearData) sum,
     count + Z.of_nat (List.length yearData)).
Proof.
  revert sum count.
  induction yearData as [| [monthStr rate] yearData IH]; intros sum count.
  - simpl. f_equal. lia.
  - cbn [fold_left values List.map List.length snd].
    unfold accumulate at 2. cbn [fst snd].
    rewrite IH. f_equal. lia.
Qed.

Lemma length_values {V : Type} (m : map V) :
  List.length (values m) = List.length m.
Proof. apply length_map. Qed.

Section Rates.

Variable ToLower : string -> string.

(** [YearInflation] resolves the country first and fails with its error. *)
Lemma YearInflation_country_error (d : Data) (country : string)
    (year month : Z) (e : error) :
  eval (GetCountry ToLower country) d = Err e ->
  eval (YearInflation ToLower country year month) d = Err e.
Proof.
  intros H. unfold YearInflation.
  rewrite eval_bind by apply GetCountry_readonly.
  rewrite H. reflexivity.
Qed.

(** The year is looked up next. *)
Lemma YearInflation_year_error (d : Data) (country : string)
    (year month : Z) (p : nat * Country) :
  eval (GetCountry ToLower country) d = Ok p ->
  index (Inflation (snd p)) (Sprintf_d year) = None ->
  eval (YearInflation ToLower country year month) d = Err (YearNotFound year country).
Proof.
  intros H Hy. unfold YearInflation.
  rewrite eval_bind by apply GetCountry_readonly.
  rewrite H, Hy. reflexivity.
Qed.

(** With the country resolved and the year found, the month decides. *)
Lemma YearInflation_year_found (d : Data) (country : string)
    (year month : Z) (p : nat * Country) (yearData : map float) :
  eval (GetCountry ToLower country) d = Ok p ->
  index (Inflation (snd p)) (Sprintf_d year) = Some yearData ->
  eval (YearInflation ToLower country year month) d =
    if month =? 0 then
      match yearData with
      | [] => Err (NoMonthlyData year country)
      | _ :: _ => Ok (mean (values yearData))
      end
    else if (1 <=? month) && (month <=? 12) then
      match index yearData (Sprintf_02d month) with
      | None => Err (MonthNotFound year month country)
      | Some rate => Ok rate
      end
    else Err (InvalidMonth month).
Proof.
  intros H Hy. unfold YearInflation.
  rewrite eval_bind by apply GetCountry_readonly.
  rewrite H. cbn beta iota zeta. cbn [snd]. rewrite Hy.
  destruct (month =? 0).
  - rewrite fold_accumulate. unfold mean. rewrite length_values.
    destruct yearData as [| entry yearData]; [reflexivity |].
    replace (0 + Z.of_nat (List.length (entry :: yearData)) =? 0) with false.
    + reflexivity.
    + symmetry. apply Z.eqb_neq. simpl List.length. lia.
  - destruct (_ && _); [| reflexivity].
    destruct (index yearData (Sprintf_02d month)); reflexivity.
Qed.

(** A call that visits the months as the table lists them. *)
Lemma YearInflationIn_storedOrder (d : Data) (country : string)
    (year month : Z) :
  eval (YearInflationIn ToLower storedOrder country year month) d =
    eval (YearInflation ToLower country year month) d.
Proof. reflexivity. Qed.

(** The order of the averaging loop plays no part in the errors of country
    resolution and of the year lookup. *)
Lemma YearInflationIn_country_error (visit : order) (d : Data)
    (country : string) (year month : Z) (e : error) :
  eval (GetCountry ToLower country) d = Err e ->
  eval (YearInflationIn ToLower visit country year month) d = Err e.
Proof.
  intros H. unfold YearInflationIn.
  rewrite eval_bind by apply GetCountry_readonly.
  rewrite H. reflexivity.
Qed.

Lemma YearInflationIn_year_error (visit : order) (d : Data)
    (country : string) (year month : Z) (p : nat * Country) :
  eval (GetCountry ToLower country) d = Ok p ->
  index (Inflation (snd p)) (Sprintf_d year) = None ->
  eval (YearInflationIn ToLower visit country year month) d =
    Err (YearNotFound year country).
Proof.
  intros H Hy. unfold YearInflationIn.
  rewrite eval_bind by apply GetCountry_readonly.
  rewrite H, Hy. reflexivity.
Qed.

(** With the country resolved and the year found: the average is taken in
    the order of the loop, a month is looked up. *)
Lemma YearInflationIn_year_found (visit : order) (d : Data)
    (country : string) (year month : Z) (p : nat * Country)
    (yearData : map float) :
  eval (GetCountry ToLower country) d = Ok p ->
  index (Inflation (snd p)) (Sprintf_d year) = Some yearData ->
  eval (YearInflationIn ToLower visit country year month) d =
    if month =? 0 then
      match visit yearData with
      | [] => Err (NoMonthlyData year country)
      | _ :: _ => Ok (mean (values (visit yearData)))
      end
    else if (1 <=? month) && (month <=? 12) then
      match index yearData (Sprintf_02d month) with
      | None => Err (MonthNotFound year month country)
      | Some rate => Ok rate
      end
    else Err (InvalidMonth month).
Proof.
  intros H Hy. unfold YearInflationIn.
  rewrite eval_bind by apply GetCountry_readonly.
  rewrite H. cbn beta iota zeta. cbn [snd]. rewrite Hy.
  destruct (month =? 0).
  - rewrite fold_accumulate. unfold mean. rewrite length_values.
    destruct (visit yearData) as [| entry rest]; [reflexivity |].
    replace (0 + Z.of_nat (List.length (entry :: rest)) =? 0) with false.
    + reflexivity.
    + symmetry. apply Z.eqb_neq. simpl List.length. lia.
  - destruct (_ && _); [| reflexivity].
    destruct (index yearData (Sprintf_02d month)); reflexivity.
Qed.

(** For a month other than 0 no loop over the map is run: the call returns
    what it returns in any other order. *)
Lemma YearInflationIn_month (visit : order) (d : Data) (country : string)
    (year month : Z) :
  month <> 0 ->
  eval (YearInflationIn ToLower visit country year month) d =
    eval (YearInflation ToLower country year month) d.
Proof.
  intros Hm. apply Z.eqb_neq in Hm.
  destruct (eval (GetCountry ToLower country) d) as [p | e] eqn:H.
  - destruct (index (Inflation (snd p)) (Sprintf_d year)) as [yearData |] eqn:Hy.
    + rewrite (YearInflationIn_year_found visit d country year month p yearData H Hy).
      rewrite (YearInflation_year_found d country year month p yearData H Hy).
      rewrite Hm. reflexivity.
    + rewrite (YearInflationIn_year_error visit d country year month p H Hy).
      rewrite (YearInflation_year_error d country year month p H Hy).
      reflexivity.
  - rewrite (YearInflationIn_country_error visit d country year month e H).
    rewrite (YearInflation_country_error d country year month e H).
    reflexivity.
Qed.

Lemma storedOrder_faithful : faithful storedOrder.
Proof. intros m. apply Permutation_refl. Qed.

Lemma rotated_faithful (k : nat) : faithful (rotated k).
Proof.
  intros m. unfold rotated.
  rewrite <- (firstn_skipn k m) at 3. apply Permutation_app_comm.
Qed.

(** Whether a call fails, and with which error, does not depend on the
    order of its averaging loop: only the rounding of the average does. *)
Lemma YearInflationIn_error (visit : order) (d : Data) (country : string)
    (year month : Z) (e : error) :
  faithful visit ->
  eval (YearInflationIn ToLower visit country year month) d = Err e <->
  eval (YearInflation ToLower country year month) d = Err e.
Proof.
  intros Hv.
  destruct (Z.eq_dec month 0) as [-> | Hm];
    [| rewrite YearInflationIn_month by assumption; reflexivity].
  destruct (eval (GetCountry ToLower country) d) as [p | e0] eqn:H.
  - destruct (index (Inflation (snd p)) (Sprintf_d year)) as [yearData |] eqn:Hy.
    + rewrite (YearInflationIn_year_found visit d country year 0 p yearData H Hy).
      rewrite (YearInflation_year_found d country year 0 p yearData H Hy).
      cbn [Z.eqb]. specialize (Hv yearData).
      destruct (visit yearData) as [| a l] eqn:E, yearData as [| b l'].
      * reflexivity.
      * apply Permutation_nil in Hv. discriminate Hv.
      * apply Permutation_sym, Permutation_nil in Hv. discriminate Hv.
      * split; discriminate.
    + rewrite (YearInflationIn_year_error visit d country year 0 p H Hy).
      rewrite (YearInflation_year_error d country year 0 p H Hy).
      reflexivity.
  - rewrite (YearInflationIn_country_error visit d country year 0 e0 H).
    rewrite (YearInflation_country_error d country year 0 e0 H).
    reflexivity.
Qed.

(** Two calls return the same when the month is not 0, or when their loops
    visit the months in the same order. *)
Lemma YearInflationIn_order (visit visit' : order) (d : Data)
    (country : string) (year month : Z) :
  month <> 0 \/ (forall m, visit m = visit' m) ->
  eval (YearInflationIn ToLower visit country year month) d =
    eval (YearInflationIn ToLower visit' country year month) d.
Proof.
  intros [Hm | Hv].
  - rewrite !YearInflationIn_month by assumption. reflexivity.
  - destruct (eval (GetCountry ToLower country) d) as [p | e] eqn:H.
    + destruct (index (Inflation (snd p)) (Sprintf_d year)) as [yearData |] eqn:Hy.
      * rewrite (YearInflationIn_year_found visit d country year month p
                   yearData H Hy).
        rewrite (YearInflationIn_year_found visit' d country year month p
                   yearData H Hy).
        rewrite Hv. reflexivity.
      * rewrite !(YearInflationIn_year_error _ d country year month p H Hy).
        reflexivity.
    + rewrite !(YearInflationIn_country_error _ d country year month e H).
      reflexivity.
Qed.

(** C2.  For a country whose table has the requested year, get-rate with
    month 0 returns the arithmetic mean of exactly the rates stored under
    that year: their sum over the number of months that are populated, not
    over 12.  When the year is there but holds no month, it signals the
    no-monthly-data error. *)
Theorem YearInflation_average (d : Data) (country : string) (year : Z)
    (i : nat) (c : Country) (yearData : map float) :
  eval (GetCountry ToLower country) d = Ok (i, c) ->
  index (Inflation c) (Sprintf_d year) = Some yearData ->
  eval (YearInflation ToLower country year 0) d =
    match yearData with
    | [] => Err (NoMonthlyData year country)
    | _ :: _ => Ok (mean (values yearData))
    end.
Proof.
  intros H Hy.
  apply (YearInflation_year_found d country year 0 (i, c) yearData H Hy).
Qed.

(** C3, as the code has it.  A month below 0 or above 12 is reported as an
    invalid month only once the country has been resolved and the year has
    been found in its table; a country that does not resolve or a year
    that is absent is reported instead. *)
Theorem YearInflation_invalid_month_last (d : Data) (country : string)
    (year month : Z) :
  month < 0 \/ month > 12 ->
  eval (YearInflation ToLower country year month) d =
    match eval (GetCountry ToLower country) d with
    | Err e => Err e
    | Ok (_, c) =>
        match index (Inflation c) (Sprintf_d year) with
        | None => Err (YearNotFound year country)
        | Some _ => Err (InvalidMonth month)
        end
    end.
Proof.
  intros Hm.
  destruct (eval (GetCountry ToLower country) d) as [[i c] | e] eqn:H.
  - destruct (index (Inflation c) (Sprintf_d year)) as [yearData |] eqn:Hy.
    + rewrite (YearInflation_year_found d country year month (i, c) yearData H Hy).
      replace (month =? 0) with false by (symmetry; apply Z.eqb_neq; lia).
      replace ((1 <=? month) && (month <=? 12)) with false; [reflexivity |].
      symmetry. apply andb_false_iff.
      destruct Hm; [left; apply Z.leb_gt | right; apply Z.leb_gt]; lia.
    + apply (YearInflation_year_error d country year month (i, c)); assumption.
  - apply YearInflation_country_error; assumption.
Qed.

End Rates.

(** ** Comparisons *)

Section Comparisons.

Variable ToLower : string -> string.

(** The two-date comparison in terms of the two rate fetches. *)
Lemma eval_CompareInflation (fromOrder toOrder : order) (d : Data)
    (country : string) (fromYear fromMonth toYear toMonth : Z) (price : float) :
  eval (CompareInflation ToLower fromOrder toOrder country
          fromYear fromMonth toYear toMonth price) d =
    match eval (YearInflationIn ToLower fromOrder country fromYear fromMonth) d with
    | Err e => Err e
    | Ok fromRate =>
        match eval (YearInflationIn ToLower toOrder country toYear toMonth) d with
        | Err e => Err e
        | Ok toRate =>
            Ok (PrimFloat.mul price (PrimFloat.div toRate fromRate),
                PrimFloat.mul
                  (PrimFloat.sub (PrimFloat.div toRate fromRate) 1%float)
                  100%float)
        end
    end.
Proof.
  unfold CompareInflation.
  rewrite eval_bind by apply YearInflationIn_readonly.
  destruct (eval (YearInflationIn ToLower fromOrder country fromYear fromMonth) d)
    as [fromRate | e]; [| reflexivity].
  rewrite eval_bind by apply YearInflationIn_readonly.
  destruct (eval (YearInflationIn ToLower toOrder country toYear toMonth) d)
    as [toRate | e]; reflexivity.
Qed.

(** The base-year comparison in terms of country resolution and the two
    rate fetches. *)
Lemma eval_CompareInflationWithBaseYear (baseOrder targetOrder : order)
    (d : Data) (country : string) (targetYear targetMonth : Z) (price : float) :
  eval (CompareInflationWithBaseYear ToLower baseOrder targetOrder country
          targetYear targetMonth price) d =
    match eval (GetCountry ToLower country) d with
    | Err e => Err e
    | Ok (_, c) =>
        if BaseYear c =? 0 then Err (BaseYearNotSet country)
        else
          match eval (YearInflationIn ToLower baseOrder country (BaseYear c) 0) d with
          | Err e => Err (BaseYearFetch e)
          | Ok baseRate =>
              match eval (YearInflationIn ToLower targetOrder country
                            targetYear targetMonth) d with
              | Err e => Err (TargetFetch e)
              | Ok targetRate =>
                  Ok (PrimFloat.mul price (PrimFloat.div targetRate baseRate))
              end
          end
    end.
Proof.
  unfold CompareInflationWithBaseYear.
  rewrite eval_bind by apply GetCountry_readonly.
  destruct (eval (GetCountry ToLower country) d) as [[i c] | e]; [| reflexivity].
  cbn [snd]. destruct (BaseYear c =? 0); [reflexivity |].
  rewrite eval_bind by apply readonly_wrap, YearInflationIn_readonly.
  rewrite eval_wrap.
  destruct (eval (YearInflationIn ToLower baseOrder country (BaseYear c) 0) d)
    as [baseRate | e]; [| reflexivity].
  rewrite eval_bind by apply readonly_wrap, YearInflationIn_readonly.
  rewrite eval_wrap.
  destruct (eval (YearInflationIn ToLower targetOrder country
                    targetYear targetMonth) d)
    as [targetRate | e]; reflexivity.
Qed.

(** C1.  The two-date comparison is computed from the two rates that its
    own two runs of get-rate return, the first for the from date with its
    averaging loop in the order [fromOrder], the second for the to date in
    the order [toOrder].  When both runs succeed, with [r1] and [r2], the
    comparison succeeds with new price [p * (r2 / r1)] and cumulative rate
    [(r2 / r1 - 1) * 100].  When the from run fails its error is returned,
    whatever the to run would do; when only the to run fails its error is
    returned; in both cases nothing else is returned. *)
Theorem CompareInflation_consistent (d : Data) (c : string)
    (y1 m1 y2 m2 : Z) (p : float) (fromOrder toOrder : order) :
  (forall r1 r2,
      eval (YearInflationIn ToLower fromOrder c y1 m1) d = Ok r1 ->
      eval (YearInflationIn ToLower toOrder c y2 m2) d = Ok r2 ->
      eval (CompareInflation ToLower fromOrder toOrder c y1 m1 y2 m2 p) d =
        Ok (p * (r2 / r1), (r2 / r1 - 1) * 100)%float)
  /\ (forall e,
      eval (YearInflationIn ToLower fromOrder c y1 m1) d = Err e ->
      eval (CompareInflation ToLower fromOrder toOrder c y1 m1 y2 m2 p) d = Err e)
  /\ (forall r1 e,
      eval (YearInflationIn ToLower fromOrder c y1 m1) d = Ok r1 ->
      eval (YearInflationIn ToLower toOrder c y2 m2) d = Err e ->
      eval (CompareInflation ToLower fromOrder toOrder c y1 m1 y2 m2 p) d = Err e).
Proof.
  rewrite eval_CompareInflation. repeat split.
  - intros r1 r2 -> ->. reflexivity.
  - intros e ->. reflexivity.
  - intros r1 e -> ->. reflexivity.
Qed.

(** C5.  For a country with a non-zero base year, the base-year comparison
    fetches the base rate as the whole-year average of the base year (month
    0) whether the target is a month or a whole year, and returns the single
    value [price * (targetRate / baseRate)]: [baseRate] is what its run of
    get-rate for the base year and month 0 returns, averaging in the order
    [baseOrder], and [targetRate] what its run for the target date returns,
    in the order [targetOrder]. *)
Theorem CompareInflationWithBaseYear_uses_year_average (d : Data)
    (country : string) (i : nat) (c : Country)
    (targetYear targetMonth : Z) (price baseRate targetRate : float)
    (baseOrder targetOrder : order) :
  eval (GetCountry ToLower country) d = Ok (i, c) ->
  BaseYear c <> 0 ->
  eval (YearInflationIn ToLower baseOrder country (BaseYear c) 0) d = Ok baseRate ->
  eval (YearInflationIn ToLower targetOrder country targetYear targetMonth) d
    = Ok targetRate ->
  eval (CompareInflationWithBaseYear ToLower baseOrder targetOrder country
          targetYear targetMonth price) d =
    Ok (price * (targetRate / baseRate))%float.
Proof.
  intros Hc Hbase Hb Ht.
  rewrite eval_CompareInflationWithBaseYear, Hc.
  apply Z.eqb_neq in Hbase. rewrite Hbase, Hb, Ht. reflexivity.
Qed.

(** C6.  For a country that resolves and whose base year is 0, the
    base-year comparison signals that the base year is not set, for every
    price and every target year and month, valid or not, present or not;
    the error is the bare one, not one wrapped by a rate fetch. *)
Theorem CompareInflationWithBaseYear_base_year_not_set (d : Data)
    (country : string) (i : nat) (c : Country) :
  eval (GetCountry ToLower country) d = Ok (i, c) ->
  BaseYear c = 0 ->
  forall (targetYear targetMonth : Z) (price : float)
         (baseOrder targetOrder : order),
    eval (CompareInflationWithBaseYear ToLower baseOrder targetOrder country
            targetYear targetMonth price) d =
      Err (BaseYearNotSet country).
Proof.
  intros Hc Hbase targetYear targetMonth price baseOrder targetOrder.
  rewrite eval_CompareInflationWithBaseYear, Hc, Hbase. reflexivity.
Qed.

End Comparisons.

(** ** Division by a zero rate *)

(** The facts of IEEE 754 arithmetic that the comparisons meet when a rate
    is zero, read off the specification of the primitive operations. *)






Section ZeroRates.

Variable ToLower : string -> string.


End ZeroRates.

(** ** The code on concrete tables *)

Import TestData.

(** The rows of [TestGetCountry], and queries in mixed case. *)
Example TestGetCountry :
  List.map (fun q => eval (GetCountry ToLowerASCII q) createTestData)
           ["United States"; "US"; "USA"; "Germany"; "DE"; "GER"; "gEr"; "France"]
  = [Ok (0%nat, UnitedStates); Ok (0%nat, UnitedStates); Ok (0%nat, UnitedStates);
     Ok (1%nat, Germany); Ok (1%nat, Germany); Ok (1%nat, Germany);
     Ok (1%nat, Germany); Err (CountryNotFound "france")].
Proof. vm_compute. reflexivity. Qed.

(** The averages of [TestYearInflation] are met up to the tolerance of the
    tests, not exactly: the sum of the twelve rates of 2015 is rounded. *)
Example TestYearInflation_average :
  eval (YearInflation ToLowerASCII "US" 2015 0) createTestData
    = Ok 0x1.9999999999999p-3%float
  /\ (PrimFloat.abs (0x1.9999999999999p-3 - 0.2) <? 1e-6)%float = true
  /\ eval (YearInflation ToLowerASCII "US" 2015 3) createTestData = Ok 0.3%float
  /\ eval (YearInflation ToLowerASCII "US" 2020 0) createTestData
       = Err (YearNotFound 2020 "US").
Proof. vm_compute. repeat split. Qed.

(** A year with two months is averaged over two, a year with none is an
    error. *)
Example YearInflation_partial_year :
  eval (YearInflation ToLowerASCII "zd" 2001 0) ZeroRate.table
    = Ok (0.3 / 2)%float
  /\ eval (YearInflation ToLowerASCII "EM" 2020 0) Gaps.table
       = Err (NoMonthlyData 2020 "EM").
Proof. vm_compute. split; reflexivity. Qed.

(** The average of a year depends on the order in which the loop adds its
    rates: the twelve rates of 2015 give one of two neighbouring numbers. *)
Example YearInflationIn_orders :
  List.map (fun k => eval (YearInflationIn ToLowerASCII (rotated k) "US" 2015 0)
                          createTestData)
           [0; 1; 2; 3]%nat
  = [Ok 0.19999999999999998; Ok 0.19999999999999998;
     Ok 0.20000000000000004; Ok 0.19999999999999998]%float.
Proof. vm_compute. reflexivity. Qed.

(** So a comparison of a year with itself need not return the price, and
    the base-year comparison against the base year itself need not either:
    the two runs of get-rate may add the rates in different orders. *)
Example same_date_comparison :
  eval (CompareInflation ToLowerASCII storedOrder storedOrder
          "US" 2015 0 2015 0 35%float) createTestData
    = Ok (35, 0)%float
  /\ eval (CompareInflation ToLowerASCII storedOrder (rotated 2)
             "US" 2015 0 2015 0 35%float) createTestData
       = Ok (35.000000000000007, 2.2204460492503131e-14)%float
  /\ eval (CompareInflationWithBaseYear ToLowerASCII (rotated 2) storedOrder
             "US" 2015 0 35%float) createTestData
       = Ok 34.999999999999993%float.
Proof. vm_compute. repeat split. Qed.

(** [TestCompareInflation], first row: the averages of 2015 and 2018 on a
    price of 35.  The expected values are met exactly when the loop over
    2015 adds the rates as the table lists them, and up to the tolerance of
    the test when it starts at March. *)
Lemma CompareInflation_consistent_witness :
  eval (CompareInflation ToLowerASCII storedOrder storedOrder
          "US" 2015 0 2018 0 35%float) createTestData
    = Ok (52.5, 50)%float
  /\ eval (CompareInflation ToLowerASCII (rotated 2) storedOrder
             "US" 2015 0 2018 0 35%float) createTestData
       = Ok (52.499999999999986, 49.999999999999957)%float.
Proof.
  split.
  - eapply eq_trans.
    + apply (proj1 (CompareInflation_consistent ToLowerASCII createTestData
                      "US" 2015 0 2018 0 35%float storedOrder storedOrder));
        reflexivity.
    + vm_compute. reflexivity.
  - eapply eq_trans.
    + apply (proj1 (CompareInflation_consistent ToLowerASCII createTestData
                      "US" 2015 0 2018 0 35%float (rotated 2) storedOrder));
        reflexivity.
    + vm_compute. reflexivity.
Defined.

(** [TestYearInflation]: the average of Germany in 2015 is the mean of its
    twelve rates. *)
Lemma YearInflation_average_witness :
  eval (YearInflation ToLowerASCII "Germany" 2015 0) createTestData
    = Ok (mean [0.05; 0.07; 0.06; 0.08; 0.07; 0.09;
                0.06; 0.05; 0.07; 0.06; 0.05; 0.07]%float).
Proof.
  apply (YearInflation_average ToLowerASCII createTestData "Germany" 2015
           1%nat Germany
           (months 0.05 0.07 0.06 0.08 0.07 0.09 0.06 0.05 0.07 0.06 0.05 0.07));
    reflexivity.
Defined.

(** C3, counterexample.  With month 13, a country that does not resolve
    and a year that is absent are reported before the month is looked at. *)
Lemma invalid_month_not_checked_first :
  eval (YearInflation ToLowerASCII "France" 2015 13) createTestData
    = Err (CountryNotFound "france")
  /\ eval (YearInflation ToLowerASCII "US" 2020 13) createTestData
       = Err (YearNotFound 2020 "US")
  /\ eval (YearInflation ToLowerASCII "France" 2015 13) createTestData
       <> Err (InvalidMonth 13)
  /\ eval (YearInflation ToLowerASCII "US" 2020 13) createTestData
       <> Err (InvalidMonth 13).
Proof. vm_compute. repeat split; discriminate. Qed.

(** Months 13 and -1 for a country and a year of the table. *)
Lemma YearInflation_invalid_month_last_witness :
  eval (YearInflation ToLowerASCII "US" 2015 13) createTestData
    = Err (InvalidMonth 13)
  /\ eval (YearInflation ToLowerASCII "US" 2015 (-1)) createTestData
       = Err (InvalidMonth (-1)).
Proof.
  split.
  - apply (YearInflation_invalid_month_last ToLowerASCII createTestData
             "US" 2015 13). right. lia.
  - apply (YearInflation_invalid_month_last ToLowerASCII createTestData
             "US" 2015 (-1)). left. lia.
Defined.

(** A mixed-case alias of the second country of the table. *)
Lemma GetCountry_first_match_witness :
  eval (GetCountry ToLowerASCII "gEr") createTestData = Ok (1%nat, Germany).
Proof.
  apply (GetCountry_first_match ToLowerASCII createTestData "gEr"
           [UnitedStates] Germany []).
  - reflexivity.
  - right; right. exists "GER". split; [right; left |]; reflexivity.
  - intros c' [<- | []] [H | [H | [a [[<- | [<- | []]] H]]]]; discriminate H.
Defined.

(** [TestCompareInflationWithBaseYear]: a target month against the average
    of the base year 2015. *)
Lemma CompareInflationWithBaseYear_uses_year_average_witness :
  eval (CompareInflationWithBaseYear ToLowerASCII storedOrder storedOrder
          "US" 2018 6 35%float) createTestData
    = Ok (35 * (0.4 / 0.19999999999999998))%float
  /\ eval (CompareInflationWithBaseYear ToLowerASCII (rotated 2) storedOrder
             "US" 2018 6 35%float) createTestData
       = Ok (35 * (0.4 / 0.20000000000000004))%float.
Proof.
  split.
  - apply (CompareInflationWithBaseYear_uses_year_average ToLowerASCII
             createTestData "US" 0%nat UnitedStates 2018 6 35%float).
    + reflexivity.
    + discriminate.
    + vm_compute. reflexivity.
    + reflexivity.
  - apply (CompareInflationWithBaseYear_uses_year_average ToLowerASCII
             createTestData "US" 0%nat UnitedStates 2018 6 35%float).
    + reflexivity.
    + discriminate.
    + vm_compute. reflexivity.
    + reflexivity.
Defined.

(** Spain has no base year; the target date does not matter. *)
Lemma CompareInflationWithBaseYear_base_year_not_set_witness :
  eval (CompareInflationWithBaseYear ToLowerASCII storedOrder storedOrder
          "Spain" 2018 6 50%float) withSpain
    = Err (BaseYearNotSet "Spain")
  /\ eval (CompareInflationWithBaseYear ToLowerASCII (rotated 1) (rotated 5)
             "es" 1900 13 50%float) withSpain
       = Err (BaseYearNotSet "es").
Proof.
  split;
    apply (CompareInflationWithBaseYear_base_year_not_set ToLowerASCII
             withSpain _ 2%nat Spain); reflexivity.
Defined.



(** C8, on the code.  For a query that matches nothing, the error carries
    the query in lower case, not the string the caller supplied: [query] is
    overwritten with [strings.ToLower(query)] before the loop and is the
    argument of [fmt.Errorf] after it. *)
Theorem GetCountry_error_carries_lowered_query :
  eval (GetCountry ToLowerASCII "France") createTestData
    = Err (CountryNotFound "france")
  /\ Error (CountryNotFound "france") = "country 'france' not found"
  /\ eval (GetCountry ToLowerASCII "France") createTestData
       <> Err (CountryNotFound "France").
Proof. vm_compute. repeat split. discriminate. Qed.

(** C9, on the code.  A table holds December 2015 and January 2017 and
    nothing else.  If [range] visits 2015 first, the last-date query returns
    December 2017; if it visits 2017 first, the first-date query returns
    January 2015.  Neither date is in the table: the month found for one
    year is kept when the loop moves on to another year, so in either order
    one of the two queries returns a month that is not under the year it
    returns. *)
Theorem first_and_last_date_mix_years :
  (dates Gaps.Ascending = [(2015, 12); (2017, 1)]
   /\ latest (dates Gaps.Ascending) = Some (2017, 1)
   /\ GetLastDate Gaps.Ascending = (2017, 12)
   /\ ~ In (2017, 12) (dates Gaps.Ascending))
  /\ (dates Gaps.Descending = [(2017, 1); (2015, 12)]
      /\ earliest (dates Gaps.Descending) = Some (2015, 12)
      /\ GetFirstDate Gaps.Descending = (2015, 1)
      /\ ~ In (2015, 1) (dates Gaps.Descending)).
Proof.
  vm_compute. repeat split.
  - intros [H | [H | []]]; discriminate H.
  - intros [H | [H | []]]; discriminate H.
Qed.

(** The same with three incomplete years visited in the order 2016, 2015,
    2018: both queries return a date that is not in the table. *)
Example first_and_last_date_with_gaps :
  dates Gaps.Gapland = [(2016, 1); (2016, 12); (2015, 3); (2018, 6)]
  /\ GetFirstDate Gaps.Gapland = (2015, 1)
  /\ earliest (dates Gaps.Gapland) = Some (2015, 3)
  /\ GetLastDate Gaps.Gapland = (2018, 12)
  /\ latest (dates Gaps.Gapland) = Some (2018, 6).
Proof. vm_compute. repeat split. Qed.

(** On the table of the tests, where every year is complete, both queries
    return dates of the table. *)
Example first_and_last_date_complete_years :
  GetFirstDate UnitedStates = (2015, 1)
  /\ earliest (dates UnitedStates) = Some (2015, 1)
  /\ GetLastDate UnitedStates = (2018, 12)
  /\ latest (dates UnitedStates) = Some (2018, 12)
  /\ GetAvailableYears UnitedStates = [2015; 2018; 2016].
Proof. vm_compute. repeat split. Qed.

(** ** Further properties of country resolution *)

Section ResolutionMore.

Variable ToLower : string -> string.

(** The only error of resolution. *)
Lemma GetCountry_error (d : Data) (q : string) (e : error) :
  eval (GetCountry ToLower q) d = Err e -> e = CountryNotFound (ToLower q).
Proof.
  rewrite eval_GetCountry.
  destruct (scan ToLower (ToLower q) 0 (Countries d)); congruence.
Qed.

(** Resolution looks at the query in lower case only. *)
Lemma GetCountry_ieq (d : Data) (q1 q2 : string) :
  ToLower q1 = ToLower q2 ->
  eval (GetCountry ToLower q1) d = eval (GetCountry ToLower q2) d.
Proof.
  intros H. rewrite !eval_GetCountry, H. reflexivity.
Qed.

(** X1.  A successful resolution returns a pointer into the table: the
    country returned is the element at the index returned, the query refers
    to it, and to no element before it. *)
Theorem GetCountry_pointer_valid (d : Data) (q : string) (i : nat) (c : Country) :
  eval (GetCountry ToLower q) d = Ok (i, c) ->
  nth_error (Countries d) i = Some c
  /\ refers ToLower q c
  /\ (forall j c', (j < i)%nat -> nth_error (Countries d) j = Some c' ->
                   ~ refers ToLower q c').
Proof.
  intros H.
  destruct (GetCountry_found ToLower d q i c H)
    as (before & after & Hd & -> & Hc & Hb).
  rewrite Hd. repeat split.
  - rewrite nth_error_app2, Nat.sub_diag by lia. reflexivity.
  - assumption.
  - intros j c' Hj Hnth. rewrite nth_error_app1 in Hnth by assumption.
    apply Hb. eapply nth_error_In; eassumption.
Qed.

(** X2.  Resolution fails exactly when the query refers to no country of
    the table, and the only error it ever returns is the not-found error
    with the lower-cased query. *)
Theorem GetCountry_fails_iff (d : Data) (q : string) (e : error) :
  eval (GetCountry ToLower q) d = Err e <->
  e = CountryNotFound (ToLower q)
  /\ (forall c, In c (Countries d) -> ~ refers ToLower q c).
Proof.
  split.
  - intros H. rewrite eval_GetCountry in H.
    destruct (scan ToLower (ToLower q) 0 (Countries d)) as [p |] eqn:Hscan;
      [discriminate |].
    injection H as <-. split; [reflexivity |].
    intros c Hin Hrefers.
    destruct (in_split _ _ Hin) as (l1 & l2 & Hd).
    (* the first country the query refers to would have been found *)
    assert (Hex : exists p, scan ToLower (ToLower q) 0 (Countries d) = Some p).
    { rewrite Hd. clear Hd Hscan Hin. generalize 0%nat.
      induction l1 as [| c0 l1 IH]; intros n; simpl.
      - apply matches_refers in Hrefers. rewrite Hrefers. eauto.
      - destruct (matches ToLower (ToLower q) c0); eauto. }
    destruct Hex as [p Hp]. congruence.
  - intros [-> H]. apply GetCountry_not_found. assumption.
Qed.

(** X3.  Two spellings of a query that are equal up to case resolve alike:
    to the same country at the same index, or to the same error. *)
Theorem GetCountry_case_insensitive (d : Data) (q1 q2 : string) :
  ieq ToLower q1 q2 ->
  eval (GetCountry ToLower q1) d = eval (GetCountry ToLower q2) d.
Proof.
  intros H. apply GetCountry_ieq. exact H.
Qed.

End ResolutionMore.

(** ** Further properties of rates *)

Lemma index_In {V : Type} (m : map V) (k : string) (v : V) :
  index m k = Some v -> In k (keys m).
Proof.
  induction m as [| [k' v'] m IH]; simpl; [discriminate |].
  destruct (String.eqb k' k) eqn:E.
  - apply String.eqb_eq in E. auto.
  - auto.
Qed.

(** The twelve keys of the months. *)
Lemma Sprintf_02d_month (month : Z) :
  1 <= month <= 12 ->
  Sprintf_02d month = nth (Z.to_nat (month - 1)) monthKeys "".
Proof.
  intros H.
  assert (Hcases : month = 1 \/ month = 2 \/ month = 3 \/ month = 4
                   \/ month = 5 \/ month = 6 \/ month = 7 \/ month = 8
                   \/ month = 9 \/ month = 10 \/ month = 11 \/ month = 12)
    by lia.
  repeat (destruct Hcases as [-> | Hcases]; [reflexivity |]).
  subst month. reflexivity.
Qed.


Section RatesMore.

Variable ToLower : string -> string.

(** X4.  For a country that resolves, a year of its table and a month from
    1 to 12, get-rate returns the rate stored under the two-character key
    of that month (["01"] to ["12"]), and signals that the month is not
    found, with the year, the month and the query as supplied, when the
    year has no such key. *)
Theorem YearInflation_specific_month (d : Data) (country : string)
    (year month : Z) (i : nat) (c : Country) (yearData : map float) :
  eval (GetCountry ToLower country) d = Ok (i, c) ->
  index (Inflation c) (Sprintf_d year) = Some yearData ->
  1 <= month <= 12 ->
  eval (YearInflation ToLower country year month) d =
    match index yearData (nth (Z.to_nat (month - 1)) monthKeys "") with
    | Some rate => Ok rate
    | None => Err (MonthNotFound year month country)
    end.
Proof.
  intros H Hy Hm.
  rewrite (YearInflation_year_found ToLower d country year month (i, c)
             yearData H Hy).
  replace (month =? 0) with false by (symmetry; apply Z.eqb_neq; lia).
  replace ((1 <=? month) && (month <=? 12)) with true
    by (symmetry; apply andb_true_iff; split; apply Z.leb_le; lia).
  rewrite Sprintf_02d_month by assumption.
  destruct (index yearData _); reflexivity.
Qed.


(** X6.  Get-rate succeeds for one spelling of a query exactly when it
    succeeds for another spelling equal to it up to case, with the same
    rate, when the month is not 0, or when the averaging loops of the two
    calls visit the months in the same order. *)
Theorem YearInflation_case_insensitive (d : Data) (q1 q2 : string)
    (year month : Z) (rate : float) (visit1 visit2 : order) :
  ieq ToLower q1 q2 ->
  month <> 0 \/ (forall m, visit1 m = visit2 m) ->
  eval (YearInflationIn ToLower visit1 q1 year month) d = Ok rate <->
  eval (YearInflationIn ToLower visit2 q2 year month) d = Ok rate.
Proof.
  intros Hq Hv.
  rewrite (YearInflationIn_order ToLower visit1 visit2 d q1 year month Hv).
  pose proof (GetCountry_ieq ToLower d q1 q2 Hq) as Hc.
  destruct (eval (GetCountry ToLower q1) d) as [p | e] eqn:H1;
    symmetry in Hc.
  - destruct (index (Inflation (snd p)) (Sprintf_d year)) as [yearData |] eqn:Hy.
    + rewrite (YearInflationIn_year_found ToLower visit2 d q1 year month p
                 yearData H1 Hy).
      rewrite (YearInflationIn_year_found ToLower visit2 d q2 year month p
                 yearData Hc Hy).
      destruct (month =? 0);
        [destruct (visit2 yearData); split; intros; congruence |].
      destruct (_ && _); [| split; intros; congruence].
      destruct (index yearData (Sprintf_02d month)); split; intros; congruence.
    + rewrite (YearInflationIn_year_error ToLower visit2 d q1 year month p H1 Hy).
      rewrite (YearInflationIn_year_error ToLower visit2 d q2 year month p Hc Hy).
      split; intros; congruence.
  - rewrite (YearInflationIn_country_error ToLower visit2 d q1 year month e H1).
    rewrite (YearInflationIn_country_error ToLower visit2 d q2 year month e Hc).
    reflexivity.
Qed.

End RatesMore.

(** ** Further properties of the comparisons *)

Section ComparisonsMore.

Variable ToLower : string -> string.

(** Get-rate with month 0, for a country that resolves, can only fail
    because the year is absent or without months. *)
Lemma YearInflation_average_errors (visit : order) (d : Data)
    (country : string) (year : Z) (p : nat * Country) (e : error) :
  eval (GetCountry ToLower country) d = Ok p ->
  eval (YearInflationIn ToLower visit country year 0) d = Err e ->
  e = YearNotFound year country \/ e = NoMonthlyData year country.
Proof.
  intros Hc H.
  destruct (index (Inflation (snd p)) (Sprintf_d year)) as [yearData |] eqn:Hy.
  - rewrite (YearInflationIn_year_found ToLower visit d country year 0 p
               yearData Hc Hy) in H.
    cbn [Z.eqb] in H. destruct (visit yearData); [| discriminate].
    right. congruence.
  - rewrite (YearInflationIn_year_error ToLower visit d country year 0 p Hc Hy)
      in H.
    left. congruence.
Qed.

(** Get-rate never reports that the country is not found once the country
    has resolved. *)
Lemma YearInflation_resolved_errors (visit : order) (d : Data)
    (country : string) (year month : Z) (p : nat * Country) (q : string) :
  eval (GetCountry ToLower country) d = Ok p ->
  eval (YearInflationIn ToLower visit country year month) d
    <> Err (CountryNotFound q).
Proof.
  intros Hc.
  destruct (index (Inflation (snd p)) (Sprintf_d year)) as [yearData |] eqn:Hy.
  - rewrite (YearInflationIn_year_found ToLower visit d country year month p
               yearData Hc Hy).
    destruct (month =? 0); [destruct (visit yearData); discriminate |].
    destruct (_ && _); [| discriminate].
    destruct (index yearData (Sprintf_02d month)); discriminate.
  - rewrite (YearInflationIn_year_error ToLower visit d country year month p
               Hc Hy).
    discriminate.
Qed.

(** X7.  The base-year comparison returns a resolution error as it is,
    the error of the base-year fetch wrapped as a base-year error, whatever
    the target fetch would do, and the error of the target fetch wrapped as
    a target error: the two missing data points can be told apart. *)
Theorem CompareInflationWithBaseYear_errors (d : Data) (country : string)
    (targetYear targetMonth : Z) (price : float)
    (baseOrder targetOrder : order) :
  (forall e,
      eval (GetCountry ToLower country) d = Err e ->
      eval (CompareInflationWithBaseYear ToLower baseOrder targetOrder country
              targetYear targetMonth price) d
        = Err e)
  /\ (forall i c e,
      eval (GetCountry ToLower country) d = Ok (i, c) ->
      BaseYear c <> 0 ->
      eval (YearInflationIn ToLower baseOrder country (BaseYear c) 0) d = Err e ->
      eval (CompareInflationWithBaseYear ToLower baseOrder targetOrder country
              targetYear targetMonth price) d
        = Err (BaseYearFetch e))
  /\ (forall i c baseRate e,
      eval (GetCountry ToLower country) d = Ok (i, c) ->
      BaseYear c <> 0 ->
      eval (YearInflationIn ToLower baseOrder country (BaseYear c) 0) d
        = Ok baseRate ->
      eval (YearInflationIn ToLower targetOrder country targetYear targetMonth) d
        = Err e ->
      eval (CompareInflationWithBaseYear ToLower baseOrder targetOrder country
              targetYear targetMonth price) d
        = Err (TargetFetch e)).
Proof.
  rewrite eval_CompareInflationWithBaseYear. repeat split.
  - intros e ->. reflexivity.
  - intros i c e -> Hbase ->. apply Z.eqb_neq in Hbase. rewrite Hbase.
    reflexivity.
  - intros i c baseRate e -> Hbase -> ->. apply Z.eqb_neq in Hbase.
    rewrite Hbase. reflexivity.
Qed.

(** X8.  The errors of the base-year comparison are of five kinds only:
    the country is not found, the base year is not set, the base year is
    absent from the table or has no months (wrapped as a base-year error),
    or an error of the target fetch other than country-not-found (wrapped
    as a target error). *)
Theorem CompareInflationWithBaseYear_error_kinds (d : Data) (country : string)
    (targetYear targetMonth : Z) (price : float) (e : error)
    (baseOrder targetOrder : order) :
  eval (CompareInflationWithBaseYear ToLower baseOrder targetOrder country
          targetYear targetMonth price) d
    = Err e ->
  e = CountryNotFound (ToLower country)
  \/ e = BaseYearNotSet country
  \/ (exists baseYear,
        baseYear <> 0
        /\ (e = BaseYearFetch (YearNotFound baseYear country)
            \/ e = BaseYearFetch (NoMonthlyData baseYear country)))
  \/ (exists e',
        e = TargetFetch e'
        /\ eval (YearInflationIn ToLower targetOrder country
                   targetYear targetMonth) d = Err e'
        /\ forall q, e' <> CountryNotFound q).
Proof.
  rewrite eval_CompareInflationWithBaseYear.
  destruct (eval (GetCountry ToLower country) d) as [[i c] | e0] eqn:Hc.
  - destruct (BaseYear c =? 0) eqn:Hbase.
    + intros [= <-]. right; left; reflexivity.
    + apply Z.eqb_neq in Hbase.
      destruct (eval (YearInflationIn ToLower baseOrder country (BaseYear c) 0) d)
        as [baseRate | e0] eqn:Hb.
      * destruct (eval (YearInflationIn ToLower targetOrder country
                          targetYear targetMonth) d)
          as [targetRate | e0] eqn:Ht; [discriminate |].
        intros [= <-]. right; right; right. exists e0.
        repeat split. intros q ->.
        apply (YearInflation_resolved_errors targetOrder d country
                 targetYear targetMonth (i, c) q Hc Ht).
      * intros [= <-]. right; right; left. exists (BaseYear c).
        split; [assumption |].
        destruct (YearInflation_average_errors baseOrder d country (BaseYear c)
                    (i, c) e0 Hc Hb) as [-> | ->]; auto.
  - intros [= <-]. left.
    apply (GetCountry_error ToLower d country e0 Hc).
Qed.

(** X9.  For a country with a base year, the base-year comparison is the
    two-date comparison from the whole-year average of the base year: with
    the averaging loops of the two calls in the same orders, it succeeds
    exactly when that comparison succeeds, with the same new price. *)
Theorem CompareInflationWithBaseYear_as_CompareInflation (d : Data)
    (country : string) (i : nat) (c : Country)
    (targetYear targetMonth : Z) (price newPrice : float)
    (baseOrder targetOrder : order) :
  eval (GetCountry ToLower country) d = Ok (i, c) ->
  BaseYear c <> 0 ->
  eval (CompareInflationWithBaseYear ToLower baseOrder targetOrder country
          targetYear targetMonth price) d
    = Ok newPrice
  <-> exists cumulativeRate,
        eval (CompareInflation ToLower baseOrder targetOrder country
                (BaseYear c) 0 targetYear targetMonth price) d
          = Ok (newPrice, cumulativeRate).
Proof.
  intros Hc Hbase. apply Z.eqb_neq in Hbase.
  rewrite eval_CompareInflationWithBaseYear, eval_CompareInflation, Hc, Hbase.
  destruct (eval (YearInflationIn ToLower baseOrder country (BaseYear c) 0) d)
    as [baseRate | e].
  - destruct (eval (YearInflationIn ToLower targetOrder country
                      targetYear targetMonth) d)
      as [targetRate | e].
    + split.
      * intros [= <-]. eexists. reflexivity.
      * intros [cumulativeRate [= <- _]]. reflexivity.
    + split; [discriminate | intros [? ?]; discriminate].
  - split; [discriminate | intros [? ?]; discriminate].
Qed.

(** X10.  The price plays no part in whether the two-date comparison
    succeeds nor in the cumulative rate.  A second call on the same dates
    with another price, zero and negative prices included, succeeds with
    the same cumulative rate; for a date with month 0 this is so when the
    averaging loop of the second call visits the months in the order of
    the first, for a date with a month from 1 to 12 whatever the orders. *)
Theorem CompareInflation_price_independent (d : Data) (country : string)
    (y1 m1 y2 m2 : Z) (price1 price2 newPrice1 cumulativeRate : float)
    (fromOrder toOrder fromOrder' toOrder' : order) :
  m1 <> 0 \/ (forall m, fromOrder m = fromOrder' m) ->
  m2 <> 0 \/ (forall m, toOrder m = toOrder' m) ->
  eval (CompareInflation ToLower fromOrder toOrder country y1 m1 y2 m2 price1) d
    = Ok (newPrice1, cumulativeRate) ->
  exists newPrice2,
    eval (CompareInflation ToLower fromOrder' toOrder' country
            y1 m1 y2 m2 price2) d
      = Ok (newPrice2, cumulativeRate).
Proof.
  intros H1 H2. rewrite !eval_CompareInflation.
  rewrite (YearInflationIn_order ToLower fromOrder fromOrder' d country y1 m1 H1).
  rewrite (YearInflationIn_order ToLower toOrder toOrder' d country y2 m2 H2).
  destruct (eval (YearInflationIn ToLower fromOrder' country y1 m1) d)
    as [fromRate | e]; [| discriminate].
  destruct (eval (YearInflationIn ToLower toOrder' country y2 m2) d)
    as [toRate | e]; [| discriminate].
  intros [= _ <-]. eexists. reflexivity.
Qed.

End ComparisonsMore.

(** ** Decimal keys *)

(** Evaluate [digit_of] on the character at hand. *)
Ltac known_digit :=
  match goal with
  | |- context [digit_of ?c] =>
      let v := eval cbv in (digit_of c) in change (digit_of c) with v
  end.

(** Reading back what [%d] prints: the loop over the digits computes what
    [Pos.of_uint] computes. *)
Lemma digits_acc (d : Decimal.uint) (acc : positive) :
  GoLib.digits (NilEmpty.string_of_uint d) (Z.pos acc)
    = Some (Z.pos (Pos.of_uint_acc d acc)).
Proof.
  revert acc.
  induction d as [| d IH | d IH | d IH | d IH | d IH | d IH | d IH | d IH
                  | d IH | d IH];
    intros acc;
    cbn [NilEmpty.string_of_uint GoLib.digits Pos.of_uint_acc];
    [reflexivity | ..];
    known_digit; cbv iota; rewrite <- IH; f_equal; lia.
Qed.

Lemma digits_of_uint (d : Decimal.uint) :
  GoLib.digits (NilEmpty.string_of_uint d) 0 = Some (Z.of_N (Pos.of_uint d)).
Proof.
  induction d as [| d IH | d IH | d IH | d IH | d IH | d IH | d IH | d IH
                  | d IH | d IH];
    cbn [NilEmpty.string_of_uint GoLib.digits Pos.of_uint];
    [reflexivity | ..];
    known_digit; cbv iota; cbn [Z.mul Z.add];
    try assumption; apply digits_acc.
Qed.

Lemma parse_int_uint (d : Decimal.uint) :
  d <> Decimal.Nil ->
  parse_int (NilEmpty.string_of_uint d) = Some (Z.of_N (Pos.of_uint d)).
Proof.
  intros Hd. rewrite <- digits_of_uint.
  destruct d; [contradiction | reflexivity ..].
Qed.

Lemma string_of_uint_nonnil (d : Decimal.uint) :
  d <> Decimal.Nil -> NilZero.string_of_uint d = NilEmpty.string_of_uint d.
Proof. destruct d; [contradiction | reflexivity ..]. Qed.

Lemma parse_int_minus (s : string) :
  parse_int (String "-" s) = option_map Z.opp (unsigned_digits s).
Proof. reflexivity. Qed.

Lemma unsigned_digits_uint (d : Decimal.uint) :
  d <> Decimal.Nil ->
  unsigned_digits (NilEmpty.string_of_uint d) = Some (Z.of_N (Pos.of_uint d)).
Proof.
  intros Hd. rewrite <- digits_of_uint.
  destruct d; [contradiction | reflexivity ..].
Qed.

Lemma parse_int_Sprintf_d (n : Z) : parse_int (Sprintf_d n) = Some n.
Proof.
  unfold Sprintf_d. destruct n as [| p | p].
  - reflexivity.
  - cbn [Z.to_int NilZero.string_of_int].
    pose proof (DecimalPos.Unsigned.to_uint_nonnil p) as Hp.
    rewrite string_of_uint_nonnil, parse_int_uint by assumption.
    rewrite DecimalPos.Unsigned.of_to. reflexivity.
  - cbn [Z.to_int NilZero.string_of_int].
    pose proof (DecimalPos.Unsigned.to_uint_nonnil p) as Hp.
    rewrite string_of_uint_nonnil by assumption.
    rewrite parse_int_minus, unsigned_digits_uint by assumption.
    rewrite DecimalPos.Unsigned.of_to. reflexivity.
Qed.

Lemma digit_of_range (c : ascii) (v : Z) : digit_of c = Some v -> 0 <= v <= 9.
Proof.
  unfold digit_of. cbn zeta.
  destruct (Nat.leb 48 (nat_of_ascii c) && Nat.leb (nat_of_ascii c) 57)%bool eqn:E;
    [| discriminate].
  apply andb_true_iff in E. destruct E as [E1 E2].
  apply Nat.leb_le in E1, E2. intros [= <-]. lia.
Qed.

(** The value read grows with every digit. *)
Lemma digits_mono (s : string) (acc n : Z) :
  GoLib.digits s acc = Some n -> 0 <= acc -> acc <= n.
Proof.
  revert acc. induction s as [| c s IH]; intros acc; cbn [GoLib.digits].
  - intros [= <-] _. lia.
  - destruct (digit_of c) as [v |] eqn:Hc; [| discriminate].
    apply digit_of_range in Hc. intros H Hacc.
    specialize (IH _ H). lia.
Qed.

(** Where the digits read to a value that fits, [ParseUint] and [ParseInt]
    return it without an error. *)
Lemma ParseUint_loop_digits (s : string) (acc n : Z) :
  GoLib.digits s acc = Some n -> 0 <= acc -> n <= maxUint64 ->
  ParseUint_loop s acc = (n, None).
Proof.
  revert acc. induction s as [| c s IH]; intros acc;
    cbn [GoLib.digits ParseUint_loop].
  - intros [= <-] _ _. reflexivity.
  - destruct (digit_of c) as [v |] eqn:Hc; [| discriminate].
    apply digit_of_range in Hc. intros H Hacc Hn.
    pose proof (digits_mono _ _ _ H) as Hmono.
    assert (Hstep : acc * 10 + v <= n) by (apply Hmono; lia).
    assert (Hmax : maxUint64 = 18446744073709551615) by reflexivity.
    replace (acc >=? maxUint64 / 10 + 1) with false.
    + cbn zeta. replace (acc * 10 + v >? maxUint64) with false.
      * apply IH; [assumption | lia | assumption].
      * symmetry. rewrite Z.gtb_ltb. apply Z.ltb_ge. lia.
    + symmetry. rewrite Z.geb_leb. apply Z.leb_gt. rewrite Hmax.
      change (18446744073709551615 / 10 + 1) with 1844674407370955162. lia.
Qed.

Lemma ParseUint_digits (s : string) (n : Z) :
  unsigned_digits s = Some n -> n <= maxUint64 ->
  0 <= n /\ ParseUint s = (n, None).
Proof.
  destruct s as [| c s]; [discriminate |].
  cbn [unsigned_digits ParseUint]. intros H Hn. split.
  - apply (digits_mono _ _ _ H). lia.
  - apply ParseUint_loop_digits; [assumption | lia | assumption].
Qed.

Lemma parse_int_cases (c : ascii) (s : string) :
  parse_int (String c s) =
    if Ascii.eqb c "+" then unsigned_digits s
    else if Ascii.eqb c "-" then option_map Z.opp (unsigned_digits s)
    else unsigned_digits (String c s).
Proof.
  destruct c as [[] [] [] [] [] [] [] []]; reflexivity.
Qed.

Lemma ParseInt_parse_int (s : string) (n : Z) :
  parse_int s = Some n -> min_int <= n <= max_int -> ParseInt s = (n, None).
Proof.
  assert (Hmax : maxUint64 = 18446744073709551615) by reflexivity.
  assert (Hmin : min_int = -9223372036854775808) by reflexivity.
  assert (Hmaxi : max_int = 9223372036854775807) by reflexivity.
  assert (H63 : 2 ^ 63 = 9223372036854775808) by reflexivity.
  destruct s as [| c s]; [discriminate |].
  rewrite parse_int_cases. unfold ParseInt. rewrite H63.
  destruct (Ascii.eqb c "+") eqn:Eplus.
  - apply Ascii.eqb_eq in Eplus. subst c. cbn [Ascii.eqb Bool.eqb orb].
    intros H Hn. destruct (ParseUint_digits s n H) as [H0 ->]; [lia |].
    cbn [negb andb].
    replace (n >=? 9223372036854775808) with false
      by (symmetry; rewrite Z.geb_leb; apply Z.leb_gt; lia).
    reflexivity.
  - destruct (Ascii.eqb c "-") eqn:Eminus.
    + cbn [orb negb andb].
      destruct (unsigned_digits s) as [u |] eqn:Hu; [| discriminate].
      cbn [option_map]. intros [= <-] Hn.
      destruct (ParseUint_digits s u Hu) as [H0 ->]; [lia |].
      replace (u >? 9223372036854775808) with false
        by (symmetry; rewrite Z.gtb_ltb; apply Z.ltb_ge; lia).
      reflexivity.
    + cbn [orb negb andb]. intros H Hn.
      destruct (ParseUint_digits (String c s) n H) as [H0 ->]; [lia |].
      replace (n >=? 9223372036854775808) with false
        by (symmetry; rewrite Z.geb_leb; apply Z.leb_gt; lia).
      reflexivity.
Qed.

Lemma strconv_Atoi_parse_int (s : string) (n : Z) :
  parse_int s = Some n -> min_int <= n <= max_int ->
  strconv_Atoi s = (n, None).
Proof.
  intros H Hn. unfold strconv_Atoi. rewrite (ParseInt_parse_int s n H Hn).
  reflexivity.
Qed.

(** On a string that denotes a number in the range of an [int], [Atoi]
    with its error dropped is that number. *)
Lemma Atoi_parse_int (s : string) (n : Z) :
  parse_int s = Some n -> min_int <= n <= max_int -> Atoi s = n.
Proof.
  intros H Hn. unfold Atoi. rewrite (strconv_Atoi_parse_int s n H Hn).
  reflexivity.
Qed.

Lemma strconv_Atoi_Sprintf_d (n : Z) :
  min_int <= n <= max_int -> strconv_Atoi (Sprintf_d n) = (n, None).
Proof.
  intros H. apply strconv_Atoi_parse_int; [apply parse_int_Sprintf_d | exact H].
Qed.

Lemma Atoi_Sprintf_d (n : Z) :
  min_int <= n <= max_int -> Atoi (Sprintf_d n) = n.
Proof.
  intros H. apply Atoi_parse_int; [apply parse_int_Sprintf_d | exact H].
Qed.

(** ** The first and the last date *)

(** The inner loop of [GetFirstDate] keeps the least month seen, 0 standing
    for none. *)
Lemma fold_firstMonth (ks : list string) (month : Z) :
  0 <= month ->
  (forall k, In k ks -> 0 < Atoi k) ->
  let r := fold_left firstMonth ks month in
  0 <= r
  /\ (forall k, In k ks -> r <= Atoi k)
  /\ (0 < month -> 0 < r <= month)
  /\ (r = month \/ exists k, In k ks /\ r = Atoi k)
  /\ (ks <> [] -> 0 < r).
Proof.
  revert month. induction ks as [| k ks IH]; intros month Hm Hks r; subst r.
  - simpl. repeat split; try lia; auto; try (intros k []); contradiction.
  - cbn [fold_left].
    assert (Hk : 0 < Atoi k) by (apply Hks; left; reflexivity).
    assert (Hks' : forall k', In k' ks -> 0 < Atoi k')
      by (intros; apply Hks; right; assumption).
    set (month' := firstMonth month k).
    assert (Hstep : 0 < month' /\ month' <= Atoi k
                    /\ (0 < month -> month' <= month)
                    /\ (month' = month \/ month' = Atoi k)).
    { unfold month', firstMonth. cbn zeta.
      destruct (month =? 0) eqn:E0; cbn [orb].
      - apply Z.eqb_eq in E0. lia.
      - apply Z.eqb_neq in E0. destruct (Atoi k <? month) eqn:E1.
        + apply Z.ltb_lt in E1. lia.
        + apply Z.ltb_ge in E1. lia. }
    destruct Hstep as (Hp & Hle & Hmono & Hor).
    specialize (IH month' (Z.lt_le_incl _ _ Hp) Hks'). cbn zeta in IH.
    destruct IH as (H0 & Hall & Hpos & Hex & _).
    specialize (Hpos Hp).
    split; [lia |]. split; [| split; [| split]].
    + intros k' [<- | Hin]; [lia | auto].
    + intros Hmonth. specialize (Hmono Hmonth). lia.
    + destruct Hex as [-> | (k' & Hin & ->)].
      * destruct Hor as [-> | ->]; [left; reflexivity |].
        right. exists k. split; [left |]; reflexivity.
      * right. exists k'. split; [right |]; auto.
    + intros _. lia.
Qed.

Lemma firstYear_step (year month : Z) (e : string * map float) :
  firstYear (year, month) e =
    if (year =? 0) || (yearOf e <? year)
    then (yearOf e, fold_left firstMonth (keys (snd e)) month)
    else (year, month).
Proof. reflexivity. Qed.

(** The outer loop of [GetFirstDate]: after any number of years, [year] is
    the least year seen and [month] is below every month of that year. *)
Lemma fold_firstYear_inv (l : map (map float)) :
  (forall entry, In entry l -> 0 < yearOf entry) ->
  (forall entry k, In entry l -> In k (keys (snd entry)) -> 0 < Atoi k) ->
  NoDup (List.map yearOf l) ->
  (l = [] /\ fold_left firstYear l (0, 0) = (0, 0))
  \/ (0 < fst (fold_left firstYear l (0, 0))
      /\ 0 <= snd (fold_left firstYear l (0, 0))
      /\ In (fst (fold_left firstYear l (0, 0))) (List.map yearOf l)
      /\ (forall entry, In entry l ->
            fst (fold_left firstYear l (0, 0)) <= yearOf entry)
      /\ (forall entry k, In entry l ->
            yearOf entry = fst (fold_left firstYear l (0, 0)) ->
            In k (keys (snd entry)) ->
            snd (fold_left firstYear l (0, 0)) <= Atoi k)).
Proof.
  induction l as [| e l IH] using rev_ind; intros Hy Hm Hnd.
  - left. split; reflexivity.
  - right. rewrite fold_left_app. cbn [fold_left].
    rewrite map_app in Hnd. cbn [List.map] in Hnd.
    apply NoDup_remove in Hnd. rewrite app_nil_r in Hnd.
    destruct Hnd as [Hnd Hnotin].
    assert (Hy' : forall entry, In entry l -> 0 < yearOf entry)
      by (intros; apply Hy, in_or_app; left; assumption).
    assert (Hm' : forall entry k, In entry l -> In k (keys (snd entry)) -> 0 < Atoi k)
      by (intros entry k Hin; apply Hm, in_or_app; left; assumption).
    assert (He : 0 < yearOf e) by (apply Hy, in_or_app; right; left; reflexivity).
    assert (Hk : forall k, In k (keys (snd e)) -> 0 < Atoi k)
      by (intros k; apply Hm, in_or_app; right; left; reflexivity).
    specialize (IH Hy' Hm' Hnd).
    destruct (fold_left firstYear l (0, 0)) as [year month] eqn:Hfold.
    cbn [fst snd] in IH. rewrite firstYear_step.
    destruct IH as [[-> [= -> ->]] | (Hpos & Hmonth & Hin & Hmin & Hle)].
    + cbn [Z.eqb orb fst snd].
      destruct (fold_firstMonth (keys (snd e)) 0 (Z.le_refl 0) Hk)
        as (H0 & Hall & _ & _ & _).
      repeat split; try assumption.
      * left; reflexivity.
      * intros entry [<- | []]. lia.
      * intros entry k [<- | []] _ Hin. apply Hall, Hin.
    + replace (year =? 0) with false by (symmetry; apply Z.eqb_neq; lia).
      cbn [orb]. destruct (yearOf e <? year) eqn:Hlt; cbn [fst snd].
      * apply Z.ltb_lt in Hlt.
        destruct (fold_firstMonth (keys (snd e)) month Hmonth Hk)
          as (H0 & Hall & _ & _ & _).
        repeat split; try assumption.
        -- rewrite map_app. apply in_or_app. right. left. reflexivity.
        -- intros entry Hentry. apply in_app_or in Hentry.
           destruct Hentry as [Hentry | [<- | []]]; [| lia].
           specialize (Hmin entry Hentry). lia.
        -- intros entry k Hentry Heq Hink. apply in_app_or in Hentry.
           destruct Hentry as [Hentry | [<- | []]]; [| apply Hall, Hink].
           specialize (Hmin entry Hentry). lia.
      * apply Z.ltb_ge in Hlt.
        assert (Hne : yearOf e <> year) by (intros Heq; apply Hnotin; rewrite Heq; exact Hin).
        repeat split; try assumption.
        -- rewrite map_app. apply in_or_app. left. assumption.
        -- intros entry Hentry. apply in_app_or in Hentry.
           destruct Hentry as [Hentry | [<- | []]]; [auto | lia].
        -- intros entry k Hentry Heq Hink. apply in_app_or in Hentry.
           destruct Hentry as [Hentry | [<- | []]]; [eauto | contradiction].
Qed.

(** The dates of a table, entry by entry. *)
Lemma in_dates (c : Country) (y m : Z) :
  In (y, m) (dates c) <->
  exists entry k, In entry (Inflation c) /\ In k (keys (snd entry))
                  /\ y = yearOf entry /\ m = Atoi k.
Proof.
  unfold dates. rewrite in_flat_map. split.
  - intros (entry & Hentry & Hin). apply in_map_iff in Hin.
    destruct Hin as (k & [= <- <-] & Hk). exists entry, k. auto.
  - intros (entry & k & Hentry & Hk & -> & ->). exists entry.
    split; [assumption |]. apply in_map_iff. exists k. auto.
Qed.

Lemma years_keys (l : map (map float)) :
  List.map Atoi (keys l) = List.map yearOf l.
Proof. unfold keys. rewrite map_map. reflexivity. Qed.

(** X12.  When the year keys read as distinct positive numbers and the
    month keys as positive numbers, no date of the table is earlier than
    the date the first-date query returns, whatever the order in which the
    years are visited. *)
Theorem GetFirstDate_lower_bound (c : Country) (y m : Z) :
  positive_years c -> positive_months c -> distinct_years c ->
  In (y, m) (dates c) ->
  date_ltb (y, m) (GetFirstDate c) = false.
Proof.
  intros Hy Hm Hnd Hin. unfold distinct_years, GetAvailableYears in Hnd.
  rewrite years_keys in Hnd.
  apply in_dates in Hin. destruct Hin as (entry & k & Hentry & Hk & -> & ->).
  unfold GetFirstDate, date_ltb. cbn [fst snd].
  destruct (fold_firstYear_inv (Inflation c) Hy Hm Hnd)
    as [[Hnil _] | (_ & _ & _ & Hmin & Hle)].
  - rewrite Hnil in Hentry. destruct Hentry.
  - specialize (Hmin entry Hentry). specialize (Hle entry k Hentry).
    apply orb_false_iff. split; [apply Z.ltb_ge; assumption |].
    apply andb_false_iff.
    destruct (Z.eq_dec (yearOf entry) (fst (fold_left firstYear (Inflation c) (0, 0))))
      as [Heq | Hne].
    + right. apply Z.ltb_ge. auto.
    + left. apply Z.eqb_neq. assumption.
Qed.

(** The inner loop of [GetLastDate] keeps the greatest month seen. *)
Lemma fold_lastMonth (ks : list string) (month : Z) :
  month <= fold_left lastMonth ks month
  /\ (forall k, In k ks -> Atoi k <= fold_left lastMonth ks month)
  /\ (fold_left lastMonth ks month = month
      \/ exists k, In k ks /\ fold_left lastMonth ks month = Atoi k).
Proof.
  revert month. induction ks as [| k ks IH]; intros month; cbn [fold_left].
  - split; [lia |]. split; [intros k [] | left; reflexivity].
  - destruct (IH (lastMonth month k)) as (Hge & Hall & Hex).
    assert (Hstep : month <= lastMonth month k /\ Atoi k <= lastMonth month k
                    /\ (lastMonth month k = month \/ lastMonth month k = Atoi k)).
    { unfold lastMonth. cbn zeta. destruct (Atoi k >? month) eqn:E.
      - apply Z.gtb_lt in E. lia.
      - rewrite Z.gtb_ltb in E. apply Z.ltb_ge in E. lia. }
    destruct Hstep as (H1 & H2 & H3).
    split; [lia |]. split.
    + intros k' [<- | Hin]; [lia | auto].
    + destruct Hex as [-> | (k' & Hin & ->)].
      * destruct H3 as [-> | ->]; [left; reflexivity |].
        right. exists k. split; [left |]; reflexivity.
      * right. exists k'. split; [right |]; auto.
Qed.

Lemma lastYear_step (year month : Z) (e : string * map float) :
  lastYear (year, month) e =
    if yearOf e >? year
    then (yearOf e, fold_left lastMonth (keys (snd e)) month)
    else (year, month).
Proof. reflexivity. Qed.

(** The outer loop of [GetLastDate]: after any number of years, [year] is
    the greatest year seen and [month] is above every month of that year. *)
Lemma fold_lastYear_inv (l : map (map float)) :
  (forall entry, In entry l -> 0 < yearOf entry) ->
  NoDup (List.map yearOf l) ->
  (l = [] /\ fold_left lastYear l (0, 0) = (0, 0))
  \/ (In (fst (fold_left lastYear l (0, 0))) (List.map yearOf l)
      /\ (forall entry, In entry l ->
            yearOf entry <= fst (fold_left lastYear l (0, 0)))
      /\ (forall entry k, In entry l ->
            yearOf entry = fst (fold_left lastYear l (0, 0)) ->
            In k (keys (snd entry)) ->
            Atoi k <= snd (fold_left lastYear l (0, 0)))).
Proof.
  induction l as [| e l IH] using rev_ind; intros Hy Hnd.
  - left. split; reflexivity.
  - right. rewrite fold_left_app. cbn [fold_left].
    rewrite map_app in Hnd. cbn [List.map] in Hnd.
    apply NoDup_remove in Hnd. rewrite app_nil_r in Hnd.
    destruct Hnd as [Hnd Hnotin].
    assert (Hy' : forall entry, In entry l -> 0 < yearOf entry)
      by (intros; apply Hy, in_or_app; left; assumption).
    assert (He : 0 < yearOf e) by (apply Hy, in_or_app; right; left; reflexivity).
    specialize (IH Hy' Hnd).
    destruct (fold_left lastYear l (0, 0)) as [year month] eqn:Hfold.
    cbn [fst snd] in IH. rewrite lastYear_step.
    destruct (fold_lastMonth (keys (snd e)) month) as (_ & Hall & _).
    destruct IH as [[-> [= -> ->]] | (Hin & Hmax & Hle)].
    + replace (yearOf e >? 0) with true by (symmetry; apply Z.gtb_lt; lia).
      cbn [fst snd]. repeat split.
      * left; reflexivity.
      * intros entry [<- | []]. lia.
      * intros entry k [<- | []] _ Hink. apply Hall, Hink.
    + destruct (yearOf e >? year) eqn:Hgt; cbn [fst snd].
      * apply Z.gtb_lt in Hgt. repeat split.
        -- rewrite map_app. apply in_or_app. right. left. reflexivity.
        -- intros entry Hentry. apply in_app_or in Hentry.
           destruct Hentry as [Hentry | [<- | []]]; [| lia].
           specialize (Hmax entry Hentry). lia.
        -- intros entry k Hentry Heq Hink. apply in_app_or in Hentry.
           destruct Hentry as [Hentry | [<- | []]]; [| apply Hall, Hink].
           specialize (Hmax entry Hentry). lia.
      * rewrite Z.gtb_ltb in Hgt. apply Z.ltb_ge in Hgt.
        assert (Hne : yearOf e <> year)
          by (intros Heq; apply Hnotin; rewrite Heq; exact Hin).
        repeat split.
        -- rewrite map_app. apply in_or_app. left. assumption.
        -- intros entry Hentry. apply in_app_or in Hentry.
           destruct Hentry as [Hentry | [<- | []]]; [auto | lia].
        -- intros entry k Hentry Heq Hink. apply in_app_or in Hentry.
           destruct Hentry as [Hentry | [<- | []]]; [eauto | contradiction].
Qed.

(** X13.  When the year keys read as distinct positive numbers, no date of
    the table is later than the date the last-date query returns, whatever
    the order in which the years are visited. *)
Theorem GetLastDate_upper_bound (c : Country) (y m : Z) :
  positive_years c -> distinct_years c ->
  In (y, m) (dates c) ->
  date_ltb (GetLastDate c) (y, m) = false.
Proof.
  intros Hy Hnd Hin. unfold distinct_years, GetAvailableYears in Hnd.
  rewrite years_keys in Hnd.
  apply in_dates in Hin. destruct Hin as (entry & k & Hentry & Hk & -> & ->).
  unfold GetLastDate, date_ltb. cbn [fst snd].
  destruct (fold_lastYear_inv (Inflation c) Hy Hnd)
    as [[Hnil _] | (_ & Hmax & Hle)].
  - rewrite Hnil in Hentry. destruct Hentry.
  - specialize (Hmax entry Hentry). specialize (Hle entry k Hentry).
    apply orb_false_iff. split; [apply Z.ltb_ge; assumption |].
    apply andb_false_iff.
    destruct (Z.eq_dec (yearOf entry) (fst (fold_left lastYear (Inflation c) (0, 0))))
      as [Heq | Hne].
    + right. apply Z.ltb_ge. auto.
    + left. apply Z.eqb_neq. intros Heq. apply Hne. symmetry. assumption.
Qed.

(** Once the earliest year has been seen the loop of [GetFirstDate] changes
    nothing; likewise for [GetLastDate] and the latest year. *)
Lemma fold_firstYear_stable (rest : map (map float)) (year month : Z) :
  year <> 0 ->
  (forall entry, In entry rest -> year <= yearOf entry) ->
  fold_left firstYear rest (year, month) = (year, month).
Proof.
  intros Hne. induction rest as [| e rest IH]; intros Hall; cbn [fold_left].
  - reflexivity.
  - rewrite firstYear_step.
    replace (year =? 0) with false by (symmetry; apply Z.eqb_neq; assumption).
    replace (yearOf e <? year) with false
      by (symmetry; apply Z.ltb_ge, Hall; left; reflexivity).
    cbn [orb]. apply IH. intros; apply Hall; right; assumption.
Qed.

Lemma fold_lastYear_stable (rest : map (map float)) (year month : Z) :
  (forall entry, In entry rest -> yearOf entry <= year) ->
  fold_left lastYear rest (year, month) = (year, month).
Proof.
  induction rest as [| e rest IH]; intros Hall; cbn [fold_left].
  - reflexivity.
  - rewrite lastYear_step.
    replace (yearOf e >? year) with false.
    + apply IH. intros; apply Hall; right; assumption.
    + symmetry. rewrite Z.gtb_ltb. apply Z.ltb_ge, Hall. left; reflexivity.
Qed.

(** X14.  When the earliest year is the first one visited (as in a table
    of a single year), and its month keys read as positive numbers, the
    first-date query returns a date of the table, and the earliest one. *)
Theorem GetFirstDate_exact (c : Country) (first : string * map float)
    (rest : map (map float)) :
  Inflation c = first :: rest ->
  0 < yearOf first ->
  keys (snd first) <> [] ->
  (forall k, In k (keys (snd first)) -> 0 < Atoi k) ->
  (forall entry, In entry rest -> yearOf first < yearOf entry) ->
  In (GetFirstDate c) (dates c)
  /\ forall y m, In (y, m) (dates c) -> date_ltb (y, m) (GetFirstDate c) = false.
Proof.
  intros Hc Hy Hne Hk Hrest.
  destruct (fold_firstMonth (keys (snd first)) 0 (Z.le_refl 0) Hk)
    as (_ & Hall & _ & Hex & Hpos).
  specialize (Hpos Hne).
  assert (Hfirst : GetFirstDate c
                   = (yearOf first, fold_left firstMonth (keys (snd first)) 0)).
  { unfold GetFirstDate. rewrite Hc. cbn [fold_left]. rewrite firstYear_step.
    cbn [Z.eqb orb]. apply fold_firstYear_stable; [lia |].
    intros entry Hin. specialize (Hrest entry Hin). lia. }
  rewrite Hfirst. split.
  - destruct Hex as [H0 | (k & Hin & Heq)]; [lia |].
    apply in_dates. exists first, k. rewrite Hc. repeat split; auto.
    left; reflexivity.
  - intros y m Hin. apply in_dates in Hin.
    destruct Hin as (entry & k & Hentry & Hink & -> & ->).
    rewrite Hc in Hentry. unfold date_ltb. cbn [fst snd].
    destruct Hentry as [<- | Hentry].
    + rewrite Z.ltb_irrefl, Z.eqb_refl. cbn [orb andb].
      apply Z.ltb_ge, Hall, Hink.
    + specialize (Hrest entry Hentry).
      replace (yearOf entry <? yearOf first) with false
        by (symmetry; apply Z.ltb_ge; lia).
      replace (yearOf entry =? yearOf first) with false
        by (symmetry; apply Z.eqb_neq; lia).
      reflexivity.
Qed.

(** X15.  When the latest year is the first one visited (as in a table of
    a single year), and one of its month keys reads as a positive number,
    the last-date query returns a date of the table, and the latest one. *)
Theorem GetLastDate_exact (c : Country) (first : string * map float)
    (rest : map (map float)) :
  Inflation c = first :: rest ->
  0 < yearOf first ->
  (exists k, In k (keys (snd first)) /\ 0 < Atoi k) ->
  (forall entry, In entry rest -> yearOf entry < yearOf first) ->
  In (GetLastDate c) (dates c)
  /\ forall y m, In (y, m) (dates c) -> date_ltb (GetLastDate c) (y, m) = false.
Proof.
  intros Hc Hy (k0 & Hk0 & Hpos0) Hrest.
  destruct (fold_lastMonth (keys (snd first)) 0) as (_ & Hall & Hex).
  assert (Hlast : GetLastDate c
                  = (yearOf first, fold_left lastMonth (keys (snd first)) 0)).
  { unfold GetLastDate. rewrite Hc. cbn [fold_left]. rewrite lastYear_step.
    replace (yearOf first >? 0) with true by (symmetry; apply Z.gtb_lt; lia).
    apply fold_lastYear_stable.
    intros entry Hin. specialize (Hrest entry Hin). lia. }
  rewrite Hlast. split.
  - destruct Hex as [H0 | (k & Hin & Heq)].
    + specialize (Hall k0 Hk0). lia.
    + apply in_dates. exists first, k. rewrite Hc. repeat split; auto.
      left; reflexivity.
  - intros y m Hin. apply in_dates in Hin.
    destruct Hin as (entry & k & Hentry & Hink & -> & ->).
    rewrite Hc in Hentry. unfold date_ltb. cbn [fst snd].
    destruct Hentry as [<- | Hentry].
    + rewrite Z.ltb_irrefl, Z.eqb_refl. cbn [orb andb].
      apply Z.ltb_ge, Hall, Hink.
    + specialize (Hrest entry Hentry).
      replace (yearOf first <? yearOf entry) with false
        by (symmetry; apply Z.ltb_ge; lia).
      replace (yearOf first =? yearOf entry) with false
        by (symmetry; apply Z.eqb_neq; lia).
      reflexivity.
Qed.


(** ** The available years *)

Section AvailableYears.

Variable ToLower : string -> string.

(** X11.  Whenever get-rate succeeds for a year (within the range of an
    [int]), that year is among the available years of the country the query
    resolves to: the key printed with [%d] reads back as the year. *)
Theorem available_years_cover_rates (d : Data) (country : string)
    (year month : Z) (rate : float) :
  min_int <= year <= max_int ->
  eval (YearInflation ToLower country year month) d = Ok rate ->
  exists i c,
    eval (GetCountry ToLower country) d = Ok (i, c)
    /\ In year (GetAvailableYears c).
Proof.
  intros Hrange H.
  destruct (eval (GetCountry ToLower country) d) as [[i c] | e] eqn:Hc.
  - exists i, c. split; [reflexivity |].
    destruct (index (Inflation c) (Sprintf_d year)) as [yearData |] eqn:Hy.
    + unfold GetAvailableYears.
      rewrite <- (Atoi_Sprintf_d year Hrange).
      apply in_map. eapply index_In. eassumption.
    + rewrite (YearInflation_year_error ToLower d country year month (i, c)
                 Hc Hy) in H.
      discriminate.
  - rewrite (YearInflation_country_error ToLower d country year month e Hc) in H.
    discriminate.
Qed.

End AvailableYears.

(** ** Reading numbers and dates *)

Lemma Split_nodash (s : string) : nodash s = true -> Split s = [s].
Proof.
  induction s as [| c s IH]; cbn [nodash Split]; [reflexivity |].
  intros H. apply andb_true_iff in H. destruct H as [Hc Hs].
  apply negb_true_iff in Hc. rewrite Hc, (IH Hs). reflexivity.
Qed.

Lemma Split_dash (a b : string) :
  nodash a = true -> Split (a ++ String "-" b) = a :: Split b.
Proof.
  induction a as [| c a IH]; cbn [nodash Split String.append].
  - reflexivity.
  - intros H. apply andb_true_iff in H. destruct H as [Hc Ha].
    apply negb_true_iff in Hc. rewrite Hc, (IH Ha). reflexivity.
Qed.

Lemma nodash_uint (d : Decimal.uint) : nodash (NilEmpty.string_of_uint d) = true.
Proof. induction d; cbn; auto. Qed.

Lemma nodash_Sprintf_d (n : Z) : 0 <= n -> nodash (Sprintf_d n) = true.
Proof.
  unfold Sprintf_d. destruct n as [| p | p]; [reflexivity | | lia].
  intros _. cbn [Z.to_int NilZero.string_of_int].
  rewrite string_of_uint_nonnil by apply DecimalPos.Unsigned.to_uint_nonnil.
  apply nodash_uint.
Qed.

(** The months 0 to 99, checked one by one. *)
Lemma month_keys_ok : forallb month_key_ok (seq 0 100) = true.
Proof. vm_compute. reflexivity. Qed.

Lemma month_key (m : Z) :
  0 <= m <= 99 ->
  String.length (Sprintf_02d m) = 2%nat
  /\ nodash (Sprintf_02d m) = true
  /\ strconv_Atoi (Sprintf_02d m) = (m, None).
Proof.
  intros Hm.
  pose proof month_keys_ok as H. rewrite forallb_forall in H.
  specialize (H (Z.to_nat m)).
  assert (Hin : In (Z.to_nat m) (seq 0 100)) by (apply in_seq; lia).
  specialize (H Hin). unfold month_key_ok in H. cbn zeta in H.
  rewrite Z2Nat.id in H by lia.
  apply andb_true_iff in H. destruct H as [H H3].
  apply andb_true_iff in H. destruct H as [H1 H2].
  apply Nat.eqb_eq in H1. repeat split; try assumption.
  destruct (strconv_Atoi (Sprintf_02d m)) as [v [err |]]; [discriminate |].
  apply Z.eqb_eq in H3. subst v. reflexivity.
Qed.

(** The two shapes of an accepted date. *)
Lemma parseDate_shape (dateStr : string) (year month : Z) :
  parseDate dateStr = inr (year, month) ->
  (String.length dateStr = 4%nat /\ month = 0)
  \/ (String.length dateStr = 7%nat /\ 1 <= month <= 12).
Proof.
  unfold parseDate.
  destruct (Nat.eqb (String.length dateStr) 4) eqn:E4.
  - apply Nat.eqb_eq in E4.
    destruct (strconv_Atoi dateStr) as [y [err |]]; [discriminate |].
    intros [= <- <-]. left. auto.
  - destruct (Nat.eqb (String.length dateStr) 7) eqn:E7; [| discriminate].
    apply Nat.eqb_eq in E7.
    destruct (Split dateStr) as [| yearStr [| monthStr [| ? ?]]];
      try discriminate.
    destruct (strconv_Atoi yearStr) as [y [err |]]; [discriminate |].
    destruct (strconv_Atoi monthStr) as [m [err |]]; [discriminate |].
    destruct ((m <? 1) || (m >? 12)) eqn:Em; [discriminate |].
    intros [= <- <-]. right. split; [assumption |].
    apply orb_false_iff in Em. destruct Em as [E1 E2].
    apply Z.ltb_ge in E1. rewrite Z.gtb_ltb in E2. apply Z.ltb_ge in E2. lia.
Qed.

(** X17.  A year whose decimal form has four characters is read back by
    [parseDate] from that form, with month 0 (this includes the negative
    years of three digits). *)
Theorem parseDate_year (year : Z) :
  min_int <= year <= max_int ->
  String.length (Sprintf_d year) = 4%nat ->
  parseDate (Sprintf_d year) = inr (year, 0).
Proof.
  intros Hrange Hlen. unfold parseDate.
  rewrite Hlen, strconv_Atoi_Sprintf_d by assumption. reflexivity.
Qed.

Lemma length_append (a b : string) :
  String.length (a ++ b) = (String.length a + String.length b)%nat.
Proof. induction a as [| c a IH]; cbn; [reflexivity | rewrite IH; reflexivity]. Qed.

(** [parseDate] on a year string and a month string without dashes, of six
    characters together, joined by a dash. *)
Lemma parseDate_pieces (yearStr monthStr : string) (year month : Z) :
  (String.length yearStr + String.length monthStr = 6)%nat ->
  nodash yearStr = true -> nodash monthStr = true ->
  strconv_Atoi yearStr = (year, None) ->
  strconv_Atoi monthStr = (month, None) ->
  parseDate (yearStr ++ "-" ++ monthStr) =
    if (month <? 1) || (month >? 12) then inl (InvalidMonthInDate None)
    else inr (year, month).
Proof.
  intros Hlen Hy Hm Hyear Hmonth. unfold parseDate.
  assert (Hl : String.length (yearStr ++ "-" ++ monthStr) = 7%nat).
  { rewrite length_append. cbn [String.append String.length]. lia. }
  rewrite Hl. cbn [Nat.eqb].
  change (yearStr ++ "-" ++ monthStr) with (yearStr ++ String "-" monthStr).
  rewrite Split_dash, Split_nodash by assumption.
  rewrite Hyear, Hmonth. reflexivity.
Qed.

(** X18.  A four-digit year and a month from 1 to 12, printed as the
    table keys are ([%d], a dash, [%02d]), are read back by [parseDate]. *)
Theorem parseDate_year_month (year month : Z) :
  0 <= year <= max_int ->
  String.length (Sprintf_d year) = 4%nat ->
  1 <= month <= 12 ->
  parseDate (Sprintf_d year ++ "-" ++ Sprintf_02d month) = inr (year, month).
Proof.
  intros Hy Hlen Hm.
  destruct (month_key month) as (Hl & Hnd & Hatoi); [lia |].
  rewrite (parseDate_pieces (Sprintf_d year) (Sprintf_02d month) year month).
  - replace (month <? 1) with false by (symmetry; apply Z.ltb_ge; lia).
    replace (month >? 12) with false
      by (symmetry; rewrite Z.gtb_ltb; apply Z.ltb_ge; lia).
    reflexivity.
  - rewrite Hlen, Hl. reflexivity.
  - apply nodash_Sprintf_d. lia.
  - assumption.
  - apply strconv_Atoi_Sprintf_d. unfold min_int. lia.
  - assumption.
Qed.

(** X19.  The dash need not be the fifth character: a year and a month
    from 1 to 12 printed with [%d], of six digits together, are accepted,
    so that a five-digit year with a one-digit month is a date. *)
Theorem parseDate_dash_anywhere (year month : Z) :
  0 <= year <= max_int ->
  1 <= month <= 12 ->
  (String.length (Sprintf_d year) + String.length (Sprintf_d month) = 6)%nat ->
  parseDate (Sprintf_d year ++ "-" ++ Sprintf_d month) = inr (year, month).
Proof.
  intros Hy Hm Hlen.
  rewrite (parseDate_pieces (Sprintf_d year) (Sprintf_d month) year month).
  - replace (month <? 1) with false by (symmetry; apply Z.ltb_ge; lia).
    replace (month >? 12) with false
      by (symmetry; rewrite Z.gtb_ltb; apply Z.ltb_ge; lia).
    reflexivity.
  - assumption.
  - apply nodash_Sprintf_d. lia.
  - apply nodash_Sprintf_d. lia.
  - apply strconv_Atoi_Sprintf_d. unfold min_int. lia.
  - apply strconv_Atoi_Sprintf_d. unfold min_int, max_int. lia.
Qed.

(** X20.  With a four-digit year, the months 00 and 13 to 99 are refused
    by [parseDate], with an invalid-month error whose cause is [nil]. *)
Theorem parseDate_month_out_of_range (year month : Z) :
  0 <= year <= max_int ->
  String.length (Sprintf_d year) = 4%nat ->
  month = 0 \/ 12 < month <= 99 ->
  parseDate (Sprintf_d year ++ "-" ++ Sprintf_02d month)
    = inl (InvalidMonthInDate None).
Proof.
  intros Hy Hlen Hm.
  destruct (month_key month) as (Hl & Hnd & Hatoi); [lia |].
  rewrite (parseDate_pieces (Sprintf_d year) (Sprintf_02d month) year month).
  - destruct Hm as [-> | Hm]; [reflexivity |].
    replace (month >? 12) with true by (symmetry; apply Z.gtb_lt; lia).
    rewrite orb_true_r. reflexivity.
  - rewrite Hlen, Hl. reflexivity.
  - apply nodash_Sprintf_d. lia.
  - assumption.
  - apply strconv_Atoi_Sprintf_d. unfold min_int. lia.
  - assumption.
Qed.


Section ParsedDates.

Variable ToLower : string -> string.

(** A month from 0 to 12 is never an invalid month. *)
Lemma YearInflation_valid_month (d : Data) (country : string)
    (year month badMonth : Z) :
  0 <= month <= 12 ->
  eval (YearInflation ToLower country year month) d <> Err (InvalidMonth badMonth).
Proof.
  intros Hm.
  destruct (eval (GetCountry ToLower country) d) as [p | e] eqn:Hc.
  - destruct (index (Inflation (snd p)) (Sprintf_d year)) as [yearData |] eqn:Hy.
    + rewrite (YearInflation_year_found ToLower d country year month p yearData
                 Hc Hy).
      destruct (month =? 0) eqn:E0; [destruct yearData; discriminate |].
      apply Z.eqb_neq in E0.
      replace ((1 <=? month) && (month <=? 12)) with true
        by (symmetry; apply andb_true_iff; split; apply Z.leb_le; lia).
      destruct (index yearData (Sprintf_02d month)); discriminate.
    + rewrite (YearInflation_year_error ToLower d country year month p Hc Hy).
      discriminate.
  - rewrite (YearInflation_country_error ToLower d country year month e Hc).
    rewrite (GetCountry_error ToLower d country e Hc). discriminate.
Qed.

(** X16.  A date that [parseDate] accepts has four characters and month 0,
    or seven characters and a month from 1 to 12; so get-rate called with
    a parsed date never signals an invalid month. *)
Theorem parsed_date_is_valid_month (dateStr : string) (year month : Z) :
  parseDate dateStr = inr (year, month) ->
  ((String.length dateStr = 4%nat /\ month = 0)
   \/ (String.length dateStr = 7%nat /\ 1 <= month <= 12))
  /\ forall (d : Data) (country : string) (badMonth : Z),
       eval (YearInflation ToLower country year month) d
         <> Err (InvalidMonth badMonth).
Proof.
  intros H. pose proof (parseDate_shape dateStr year month H) as Hshape.
  split; [exact Hshape |].
  intros d country badMonth. apply YearInflation_valid_month.
  destruct Hshape as [[_ ->] | [_ Hm]]; lia.
Qed.

End ParsedDates.

(** ** The import command *)

(** A read-only computation returns its table and its value. *)
Lemma run_readonly {A : Type} (m : M A) (d : Data) :
  readonly m -> m d = (d, eval m d).
Proof.
  intros H. specialize (H d). unfold exec in H. unfold eval.
  destruct (m d) as [d' r]. cbn in *. subst d'. reflexivity.
Qed.

(** Reading a list after a write at an index. *)
Lemma nth_error_store_same {A : Type} (l : list A) (i : nat) (a b : A) :
  nth_error l i = Some a -> nth_error (store i b l) i = Some b.
Proof.
  revert i. induction l as [| x l IH]; intros [| i]; cbn; try discriminate; auto.
Qed.

Lemma nth_error_store_other {A : Type} (l : list A) (i j : nat) (b : A) :
  i <> j -> nth_error (store i b l) j = nth_error l j.
Proof.
  revert i j. induction l as [| x l IH]; intros [| i] [| j] H; cbn; auto.
  contradiction.
Qed.

(** Reading a map after an assignment. *)
Lemma index_assign_same {V : Type} (m : map V) (k : string) (v : V) :
  index (assign m k v) k = Some v.
Proof.
  induction m as [| [k' v'] m IH]; cbn.
  - rewrite String.eqb_refl. reflexivity.
  - destruct (String.eqb k' k) eqn:E; cbn; rewrite E; auto.
Qed.

Lemma index_assign_other {V : Type} (m : map V) (k k' : string) (v : V) :
  k' <> k -> index (assign m k v) k' = index m k'.
Proof.
  intros Hne. induction m as [| [k0 v0] m IH]; cbn.
  - replace (String.eqb k k') with false; [reflexivity |].
    symmetry. apply String.eqb_neq. congruence.
  - destruct (String.eqb k0 k) eqn:E; cbn.
    + apply String.eqb_eq in E. subst k0.
      replace (String.eqb k k') with false; [reflexivity |].
      symmetry. apply String.eqb_neq. congruence.
    + rewrite IH. reflexivity.
Qed.


Section ImportProperties.

Variable ToLower : string -> string.

(** Resolution after a write that keeps the name, the code and the aliases
    of the country written. *)
Lemma matches_same_identity (query : string) (c c' : Country) :
  same_identity c c' -> matches ToLower query c = matches ToLower query c'.
Proof.
  intros (Hn & Hc & Ha). unfold matches. rewrite Hn, Hc, Ha. reflexivity.
Qed.

Lemma scan_store (query : string) (l : list Country) (i j : nat)
    (c c' : Country) :
  nth_error l j = Some c -> same_identity c c' ->
  scan ToLower query i (store j c' l) =
    match scan ToLower query i l with
    | Some (k, c0) => Some (k, if Nat.eqb k (i + j) then c' else c0)
    | None => None
    end.
Proof.
  revert i j. induction l as [| x l IH]; intros i [| j] Hnth Hsame; cbn in *;
    try discriminate.
  - injection Hnth as ->.
    rewrite <- (matches_same_identity query c c' Hsame).
    destruct (matches ToLower query c).
    + rewrite Nat.add_0_r, Nat.eqb_refl. reflexivity.
    + destruct (scan ToLower query (S i) l) as [[k c0] |] eqn:Hs; [| reflexivity].
      destruct (scan_some ToLower _ _ _ _ _ Hs) as (b & a & _ & -> & _).
      replace (Nat.eqb (S i + List.length b) (i + 0)) with false; [reflexivity |].
      symmetry. apply Nat.eqb_neq. lia.
  - destruct (matches ToLower query x).
    + replace (Nat.eqb i (i + S j)) with false; [reflexivity |].
      symmetry. apply Nat.eqb_neq. lia.
    + rewrite (IH (S i) j Hnth Hsame).
      replace (S i + j)%nat with (i + S j)%nat by lia. reflexivity.
Qed.

(** Resolution in a table with countries appended. *)
Lemma scan_app (query : string) (l l' : list Country) (i : nat) :
  scan ToLower query i (l ++ l') =
    match scan ToLower query i l with
    | Some p => Some p
    | None => scan ToLower query (i + List.length l) l'
    end.
Proof.
  revert i. induction l as [| x l IH]; intros i; cbn.
  - rewrite Nat.add_0_r. reflexivity.
  - destruct (matches ToLower query x); [reflexivity |].
    rewrite IH. replace (S i + List.length l)%nat with (i + S (List.length l))%nat by lia.
    reflexivity.
Qed.

(** The pointer returned by resolution points to the country returned. *)
Lemma GetCountry_nth (d : Data) (q : string) (i : nat) (c : Country) :
  eval (GetCountry ToLower q) d = Ok (i, c) -> nth_error (Countries d) i = Some c.
Proof.
  intros H.
  destruct (GetCountry_found ToLower d q i c H) as (b & a & Hd & -> & _).
  rewrite Hd, nth_error_app2, Nat.sub_diag by lia. reflexivity.
Qed.

Lemma GetCountry_store (d : Data) (q : string) (j : nat) (c c' : Country) :
  nth_error (Countries d) j = Some c -> same_identity c c' ->
  eval (GetCountry ToLower q) {| Countries := store j c' (Countries d) |} =
    match eval (GetCountry ToLower q) d with
    | Ok (k, c0) => Ok (k, if Nat.eqb k j then c' else c0)
    | Err e => Err e
    end.
Proof.
  intros Hnth Hsame. rewrite !eval_GetCountry. cbn [Countries].
  rewrite (scan_store _ _ 0 j c c' Hnth Hsame).
  destruct (scan ToLower (ToLower q) 0 (Countries d)) as [[k c0] |]; reflexivity.
Qed.

(** Get-rate looks at the months of the year of the resolved country only. *)
Lemma YearInflation_same_rates (d d' : Data) (q : string) (i i' : nat)
    (c c' : Country) (year month : Z) :
  eval (GetCountry ToLower q) d = Ok (i, c) ->
  eval (GetCountry ToLower q) d' = Ok (i', c') ->
  index (Inflation c') (Sprintf_d year) = index (Inflation c) (Sprintf_d year) ->
  eval (YearInflation ToLower q year month) d'
    = eval (YearInflation ToLower q year month) d.
Proof.
  intros H H' Hi.
  destruct (index (Inflation c) (Sprintf_d year)) as [yearData |] eqn:Hy.
  - rewrite (YearInflation_year_found ToLower d q year month (i, c) yearData H Hy).
    rewrite (YearInflation_year_found ToLower d' q year month (i', c') yearData H' Hi).
    reflexivity.
  - rewrite (YearInflation_year_error ToLower d q year month (i, c) H Hy).
    rewrite (YearInflation_year_error ToLower d' q year month (i', c') H' Hi).
    reflexivity.
Qed.

(** The same for two calls whose averaging loops visit the months in the
    same order, or that look up a month. *)
Lemma YearInflationIn_same_rates (visit visit' : order) (d d' : Data)
    (q : string) (i i' : nat) (c c' : Country) (year month : Z) :
  eval (GetCountry ToLower q) d = Ok (i, c) ->
  eval (GetCountry ToLower q) d' = Ok (i', c') ->
  index (Inflation c') (Sprintf_d year) = index (Inflation c) (Sprintf_d year) ->
  month <> 0 \/ (forall m, visit m = visit' m) ->
  eval (YearInflationIn ToLower visit' q year month) d'
    = eval (YearInflationIn ToLower visit q year month) d.
Proof.
  intros H H' Hi Hv.
  rewrite (YearInflationIn_order ToLower visit visit' d q year month Hv).
  destruct (index (Inflation c) (Sprintf_d year)) as [yearData |] eqn:Hy.
  - rewrite (YearInflationIn_year_found ToLower visit' d q year month (i, c)
               yearData H Hy).
    rewrite (YearInflationIn_year_found ToLower visit' d' q year month (i', c')
               yearData H' Hi).
    reflexivity.
  - rewrite (YearInflationIn_year_error ToLower visit' d q year month (i, c) H Hy).
    rewrite (YearInflationIn_year_error ToLower visit' d' q year month (i', c')
               H' Hi).
    reflexivity.
Qed.

Lemma same_identity_withBaseYear (c : Country) (baseYear : Z) :
  same_identity c (withBaseYear c baseYear).
Proof. repeat split. Qed.

Lemma same_identity_withInflation (c : Country) (inflation : map (map float)) :
  same_identity c (withInflation c inflation).
Proof. repeat split. Qed.

Lemma refers_same_identity (q : string) (c c' : Country) :
  same_identity c c' -> refers ToLower q c -> refers ToLower q c'.
Proof.
  intros (Hn & Hc & Ha). unfold refers. rewrite Hn, Hc, Ha. auto.
Qed.

(** The two branches of the country step. *)
Lemma importCountry_found (d : Data) (q : string) (baseYear : Z)
    (i : nat) (c : Country) :
  eval (GetCountry ToLower q) d = Ok (i, c) ->
  importCountry ToLower q baseYear d =
    if BaseYear c =? 0
    then ({| Countries := store i (withBaseYear c baseYear) (Countries d) |},
          Ok (i, withBaseYear c baseYear))
    else (d, Ok (i, c)).
Proof.
  intros H. unfold importCountry.
  rewrite (run_readonly _ d (GetCountry_readonly ToLower q)), H.
  destruct (BaseYear c =? 0); reflexivity.
Qed.

Lemma GetCountry_after_append (d : Data) (q : string) (baseYear : Z) (e : error) :
  eval (GetCountry ToLower q) d = Err e ->
  let newCountry :=
    {| Name := q; Aliases := []; Code := q; BaseYear := baseYear;
       Inflation := [] |} in
  eval (GetCountry ToLower q) {| Countries := Countries d ++ [newCountry] |}
    = Ok (List.length (Countries d), newCountry).
Proof.
  intros H newCountry. rewrite eval_GetCountry in *. cbn [Countries].
  destruct (scan ToLower (ToLower q) 0 (Countries d)) as [p |] eqn:Hs;
    [discriminate |].
  rewrite scan_app, Hs. cbn [scan].
  replace (matches ToLower (ToLower q) newCountry) with true; [reflexivity |].
  symmetry. unfold matches, newCountry. cbn [Name].
  rewrite String.eqb_refl. reflexivity.
Qed.

Lemma importCountry_not_found (d : Data) (q : string) (baseYear : Z) (e : error) :
  eval (GetCountry ToLower q) d = Err e ->
  let newCountry :=
    {| Name := q; Aliases := []; Code := q; BaseYear := baseYear;
       Inflation := [] |} in
  importCountry ToLower q baseYear d =
    ({| Countries := Countries d ++ [newCountry] |},
     Ok (List.length (Countries d), newCountry)).
Proof.
  intros H newCountry. unfold importCountry.
  rewrite (run_readonly _ d (GetCountry_readonly ToLower q)), H.
  unfold bind, appendCountry.
  rewrite (run_readonly _ _ (GetCountry_readonly ToLower q)).
  rewrite (GetCountry_after_append d q baseYear e H). reflexivity.
Qed.

(** The country step of the import, in full. *)
Lemma importCountry_resolves (d : Data) (q : string) (baseYear : Z) :
  exists i c,
    eval (importCountry ToLower q baseYear) d = Ok (i, c)
    /\ eval (GetCountry ToLower q) (exec (importCountry ToLower q baseYear) d)
         = Ok (i, c)
    /\ refers ToLower q c
    /\ (baseYear <> 0 -> BaseYear c <> 0).
Proof.
  unfold eval at 1, exec.
  destruct (eval (GetCountry ToLower q) d) as [[i c] | e] eqn:H.
  - rewrite (importCountry_found d q baseYear i c H).
    pose proof (GetCountry_nth d q i c H) as Hnth.
    destruct (GetCountry_found ToLower d q i c H) as (_ & _ & _ & _ & Hr & _).
    destruct (BaseYear c =? 0) eqn:Hb; cbn [fst snd].
    + exists i, (withBaseYear c baseYear). repeat split.
      * rewrite (GetCountry_store d q i c _ Hnth
                   (same_identity_withBaseYear c baseYear)).
        rewrite H, Nat.eqb_refl. reflexivity.
      * apply (refers_same_identity q c);
          [apply same_identity_withBaseYear | exact Hr].
      * auto.
    + exists i, c. repeat split; auto.
      intros _. apply Z.eqb_neq. assumption.
  - rewrite (importCountry_not_found d q baseYear e H). cbn [fst snd].
    eexists _, _. split; [reflexivity |]. repeat split.
    + apply (GetCountry_after_append d q baseYear e H).
    + left. reflexivity.
    + auto.
Qed.

(** X21.  The country step of the import never fails: it returns a
    pointer to a country that the query refers to, which is the country the
    query resolves to in the table it leaves behind; with a non-zero base
    year given, that country has a base year. *)
Theorem importCountry_succeeds (d : Data) (q : string) (baseYear : Z) :
  exists i c,
    eval (importCountry ToLower q baseYear) d = Ok (i, c)
    /\ eval (GetCountry ToLower q) (exec (importCountry ToLower q baseYear) d)
         = Ok (i, c)
    /\ refers ToLower q c
    /\ (baseYear <> 0 -> BaseYear c <> 0).
Proof. apply importCountry_resolves. Qed.

(** X22.  The country step of the import changes no rate: get-rate for a
    query that resolved before returns afterwards what it returned before,
    whether a country was appended or a base year was set, when the month
    is not 0, or when the averaging loops of the two calls visit the months
    in the same order. *)
Theorem importCountry_keeps_rates (d : Data) (q : string) (baseYear : Z)
    (q' : string) (j : nat) (c' : Country) (year month : Z)
    (visit visit' : order) :
  eval (GetCountry ToLower q') d = Ok (j, c') ->
  month <> 0 \/ (forall m, visit m = visit' m) ->
  eval (YearInflationIn ToLower visit' q' year month)
       (exec (importCountry ToLower q baseYear) d)
    = eval (YearInflationIn ToLower visit q' year month) d.
Proof.
  intros H' Hv. unfold exec.
  destruct (eval (GetCountry ToLower q) d) as [[i c] | e] eqn:H.
  - rewrite (importCountry_found d q baseYear i c H).
    destruct (BaseYear c =? 0); cbn [fst];
      [| symmetry; apply YearInflationIn_order; exact Hv].
    pose proof (GetCountry_nth d q i c H) as Hnth.
    pose proof (GetCountry_store d q' i c _ Hnth
                  (same_identity_withBaseYear c baseYear)) as Hs.
    rewrite H' in Hs.
    apply (YearInflationIn_same_rates visit visit' d _ q' j j c' _ year month
             H' Hs); [| exact Hv].
    destruct (Nat.eqb j i) eqn:E; [| reflexivity].
    apply Nat.eqb_eq in E. subst j.
    pose proof (GetCountry_nth d q' i c' H') as Hnth'.
    rewrite Hnth in Hnth'. injection Hnth' as <-. reflexivity.
  - rewrite (importCountry_not_found d q baseYear e H). cbn [fst].
    apply (YearInflationIn_same_rates visit visit' d _ q' j j c' c' year month
             H'); [| reflexivity | exact Hv].
    rewrite eval_GetCountry in *. cbn [Countries]. rewrite scan_app.
    destruct (scan ToLower (ToLower q') 0 (Countries d)); [assumption | discriminate].
Qed.

(** X23.  After the country step of the import with a non-zero base year,
    the base-year comparison for the same query never signals that the base
    year is not set. *)
Theorem importCountry_sets_base_year (d : Data) (q : string) (baseYear : Z)
    (targetYear targetMonth : Z) (price : float) (q' : string)
    (baseOrder targetOrder : order) :
  baseYear <> 0 ->
  eval (CompareInflationWithBaseYear ToLower baseOrder targetOrder q
          targetYear targetMonth price)
       (exec (importCountry ToLower q baseYear) d)
    <> Err (BaseYearNotSet q').
Proof.
  intros Hb.
  destruct (importCountry_resolves d q baseYear) as (i & c & _ & Hc & _ & Hbase).
  specialize (Hbase Hb). apply Z.eqb_neq in Hbase.
  rewrite eval_CompareInflationWithBaseYear, Hc, Hbase.
  destruct (eval (YearInflationIn ToLower baseOrder q (BaseYear c) 0) _);
    [| discriminate].
  destruct (eval (YearInflationIn ToLower targetOrder q targetYear targetMonth) _);
    discriminate.
Qed.

(** The table of a country after a rate has been stored. *)
Lemma setRate_year (c : Country) (yearStr monthStr : string) (value : float) :
  index (Inflation (setRate c yearStr monthStr value)) yearStr
    = Some (assign match index (Inflation c) yearStr with
                   | Some months => months
                   | None => []
                   end monthStr value).
Proof.
  unfold setRate.
  destruct (index (Inflation c) yearStr) as [months |] eqn:Hy; cbn zeta.
  - rewrite Hy. cbn [withInflation Inflation]. apply index_assign_same.
  - rewrite index_assign_same. cbn [withInflation Inflation].
    apply index_assign_same.
Qed.

Lemma setRate_other_year (c : Country) (yearStr monthStr yearStr' : string)
    (value : float) :
  yearStr' <> yearStr ->
  index (Inflation (setRate c yearStr monthStr value)) yearStr'
    = index (Inflation c) yearStr'.
Proof.
  intros Hne. unfold setRate.
  destruct (index (Inflation c) yearStr) as [months |] eqn:Hy; cbn zeta.
  - rewrite Hy. cbn [withInflation Inflation].
    apply index_assign_other. assumption.
  - rewrite index_assign_same. cbn [withInflation Inflation].
    rewrite !index_assign_other by assumption. reflexivity.
Qed.

Lemma same_identity_setRate (c : Country) (yearStr monthStr : string)
    (value : float) :
  same_identity c (setRate c yearStr monthStr value).
Proof.
  unfold setRate.
  destruct (index match index (Inflation c) yearStr with
                  | Some _ => Inflation c
                  | None => assign (Inflation c) yearStr []
                  end yearStr);
    apply same_identity_withInflation.
Qed.

Lemma exec_importRate (d : Data) (i : nat) (c : Country) (year month : Z)
    (value : float) :
  nth_error (Countries d) i = Some c ->
  exec (importRate i year month value) d =
    {| Countries :=
         store i (setRate c (Sprintf_d year) (Sprintf_02d month) value)
               (Countries d) |}.
Proof.
  intros H. unfold exec, importRate. rewrite H. reflexivity.
Qed.

(** Different years and months have different keys. *)
Lemma Sprintf_d_inj (n n' : Z) :
  min_int <= n <= max_int -> min_int <= n' <= max_int ->
  Sprintf_d n = Sprintf_d n' -> n = n'.
Proof.
  intros H H' Heq.
  rewrite <- (Atoi_Sprintf_d n H), <- (Atoi_Sprintf_d n' H'), Heq. reflexivity.
Qed.

Lemma Sprintf_02d_inj (m m' : Z) :
  0 <= m <= 99 -> 0 <= m' <= 99 ->
  Sprintf_02d m = Sprintf_02d m' -> m = m'.
Proof.
  intros H H' Heq.
  destruct (month_key m H) as (_ & _ & Ha).
  destruct (month_key m' H') as (_ & _ & Ha').
  rewrite Heq in Ha. congruence.
Qed.

(** X24.  A rate stored by the import for a month from 1 to 12 is the
    rate that get-rate returns for that year and month afterwards, whether
    the year or the month was in the table before or not. *)
Theorem importRate_then_YearInflation (d : Data) (q : string) (i : nat)
    (c : Country) (year month : Z) (value : float) :
  eval (GetCountry ToLower q) d = Ok (i, c) ->
  1 <= month <= 12 ->
  eval (YearInflation ToLower q year month)
       (exec (importRate i year month value) d)
    = Ok value.
Proof.
  intros H Hm.
  pose proof (GetCountry_nth d q i c H) as Hnth.
  rewrite (exec_importRate d i c year month value Hnth).
  set (c' := setRate c (Sprintf_d year) (Sprintf_02d month) value).
  assert (H' : eval (GetCountry ToLower q)
                    {| Countries := store i c' (Countries d) |} = Ok (i, c')).
  { rewrite (GetCountry_store d q i c c' Hnth (same_identity_setRate _ _ _ _)).
    rewrite H, Nat.eqb_refl. reflexivity. }
  rewrite (YearInflation_year_found ToLower _ q year month (i, c') _ H'
             (setRate_year c _ _ value)).
  replace (month =? 0) with false by (symmetry; apply Z.eqb_neq; lia).
  replace ((1 <=? month) && (month <=? 12)) with true
    by (symmetry; apply andb_true_iff; split; apply Z.leb_le; lia).
  rewrite index_assign_same. reflexivity.
Qed.

(** X25.  Storing a rate leaves the other dates of the country as they
    were: for a different year or month, get-rate finds a rate afterwards
    exactly when it found it before, and it is the same rate. *)
Theorem importRate_keeps_other_dates (d : Data) (q : string) (i : nat)
    (c : Country) (year month : Z) (value : float)
    (year' month' : Z) (rate : float) :
  eval (GetCountry ToLower q) d = Ok (i, c) ->
  min_int <= year <= max_int -> min_int <= year' <= max_int ->
  1 <= month <= 12 -> 1 <= month' <= 12 ->
  (year', month') <> (year, month) ->
  eval (YearInflation ToLower q year' month')
       (exec (importRate i year month value) d) = Ok rate
  <-> eval (YearInflation ToLower q year' month') d = Ok rate.
Proof.
  intros H Hy Hy' Hm Hm' Hne.
  pose proof (GetCountry_nth d q i c H) as Hnth.
  rewrite (exec_importRate d i c year month value Hnth).
  set (c' := setRate c (Sprintf_d year) (Sprintf_02d month) value).
  assert (H' : eval (GetCountry ToLower q)
                    {| Countries := store i c' (Countries d) |} = Ok (i, c')).
  { rewrite (GetCountry_store d q i c c' Hnth (same_identity_setRate _ _ _ _)).
    rewrite H, Nat.eqb_refl. reflexivity. }
  destruct (Z.eq_dec year' year) as [-> | Hyear].
  - assert (Hmonth : Sprintf_02d month' <> Sprintf_02d month).
    { intros Heq. apply Hne. f_equal. apply Sprintf_02d_inj; [lia | lia | exact Heq]. }
    rewrite (YearInflation_year_found ToLower _ q year month' (i, c') _ H'
               (setRate_year c _ _ value)).
    replace (month' =? 0) with false by (symmetry; apply Z.eqb_neq; lia).
    replace ((1 <=? month') && (month' <=? 12)) with true
      by (symmetry; apply andb_true_iff; split; apply Z.leb_le; lia).
    rewrite index_assign_other by assumption.
    destruct (index (Inflation c) (Sprintf_d year)) as [months |] eqn:Hyd.
    + rewrite (YearInflation_year_found ToLower d q year month' (i, c) months H Hyd).
      replace (month' =? 0) with false by (symmetry; apply Z.eqb_neq; lia).
      replace ((1 <=? month') && (month' <=? 12)) with true
        by (symmetry; apply andb_true_iff; split; apply Z.leb_le; lia).
      reflexivity.
    + rewrite (YearInflation_year_error ToLower d q year month' (i, c) H Hyd).
      cbn [index]. split; discriminate.
  - assert (Hkey : Sprintf_d year' <> Sprintf_d year).
    { intros Heq. apply Hyear. apply Sprintf_d_inj; assumption. }
    rewrite (YearInflation_same_rates d _ q i i c c' year' month' H H'
               (setRate_other_year c _ _ _ value Hkey)).
    reflexivity.
Qed.

(** X26.  Storing a rate for one country changes nothing for a query that
    resolves to another country: get-rate returns what it returned
    before, value or error, when the month is not 0, or when the averaging
    loops of the two calls visit the months in the same order. *)
Theorem importRate_keeps_other_countries (d : Data) (q q' : string)
    (i j : nat) (c c' : Country) (year month : Z) (value : float)
    (year' month' : Z) (visit visit' : order) :
  eval (GetCountry ToLower q) d = Ok (i, c) ->
  eval (GetCountry ToLower q') d = Ok (j, c') ->
  j <> i ->
  month' <> 0 \/ (forall m, visit m = visit' m) ->
  eval (YearInflationIn ToLower visit' q' year' month')
       (exec (importRate i year month value) d)
    = eval (YearInflationIn ToLower visit q' year' month') d.
Proof.
  intros H H' Hne Hv.
  pose proof (GetCountry_nth d q i c H) as Hnth.
  rewrite (exec_importRate d i c year month value Hnth).
  pose proof (GetCountry_store d q' i c _ Hnth
                (same_identity_setRate c (Sprintf_d year) (Sprintf_02d month) value))
    as Hs.
  rewrite H' in Hs.
  replace (Nat.eqb j i) with false in Hs
    by (symmetry; apply Nat.eqb_neq; assumption).
  apply (YearInflationIn_same_rates visit visit' d _ q' j j c' c' year' month'
           H' Hs); [reflexivity | exact Hv].
Qed.

End ImportProperties.

(** ** Instances of the further properties *)

Lemma GetCountry_pointer_valid_witness :
  nth_error (Countries createTestData) 1 = Some Germany
  /\ refers ToLowerASCII "ger" Germany
  /\ (forall j c', (j < 1)%nat ->
        nth_error (Countries createTestData) j = Some c' ->
        ~ refers ToLowerASCII "ger" c').
Proof.
  apply (GetCountry_pointer_valid ToLowerASCII createTestData "ger" 1 Germany).
  reflexivity.
Defined.

Lemma GetCountry_case_insensitive_witness :
  eval (GetCountry ToLowerASCII "Germany") createTestData
    = eval (GetCountry ToLowerASCII "gerMANY") createTestData.
Proof.
  apply (GetCountry_case_insensitive ToLowerASCII createTestData
           "Germany" "gerMANY").
  reflexivity.
Defined.

Lemma YearInflation_specific_month_witness :
  eval (YearInflation ToLowerASCII "US" 2018 6) createTestData = Ok 0.4%float.
Proof.
  eapply eq_trans.
  - eapply (YearInflation_specific_month ToLowerASCII createTestData "US" 2018 6);
      [reflexivity | reflexivity | lia].
  - reflexivity.
Defined.


Lemma YearInflation_case_insensitive_witness :
  (eval (YearInflationIn ToLowerASCII (rotated 2) "US" 2015 0) createTestData
     = Ok 0.20000000000000004%float
   <-> eval (YearInflationIn ToLowerASCII (rotated 2) "us" 2015 0) createTestData
         = Ok 0.20000000000000004%float)
  /\ (eval (YearInflationIn ToLowerASCII storedOrder "US" 2015 3) createTestData
        = Ok 0.3%float
      <-> eval (YearInflationIn ToLowerASCII (rotated 2) "us" 2015 3) createTestData
            = Ok 0.3%float).
Proof.
  split.
  - apply (YearInflation_case_insensitive ToLowerASCII createTestData "US" "us").
    + reflexivity.
    + right. reflexivity.
  - apply (YearInflation_case_insensitive ToLowerASCII createTestData "US" "us").
    + reflexivity.
    + left. discriminate.
Defined.

Lemma CompareInflationWithBaseYear_errors_witness :
  eval (CompareInflationWithBaseYear ToLowerASCII (rotated 2) storedOrder
          "US" 2020 0 35%float) createTestData
    = Err (TargetFetch (YearNotFound 2020 "US")).
Proof.
  eapply (proj2 (proj2 (CompareInflationWithBaseYear_errors ToLowerASCII
                          createTestData "US" 2020 0 35%float
                          (rotated 2) storedOrder))).
  - reflexivity.
  - discriminate.
  - vm_compute. reflexivity.
  - reflexivity.
Defined.

Lemma CompareInflationWithBaseYear_error_kinds_witness :
  TargetFetch (YearNotFound 2020 "US") = CountryNotFound (ToLowerASCII "US")
  \/ TargetFetch (YearNotFound 2020 "US") = BaseYearNotSet "US"
  \/ (exists baseYear,
        baseYear <> 0
        /\ (TargetFetch (YearNotFound 2020 "US")
              = BaseYearFetch (YearNotFound baseYear "US")
            \/ TargetFetch (YearNotFound 2020 "US")
                 = BaseYearFetch (NoMonthlyData baseYear "US")))
  \/ (exists e',
        TargetFetch (YearNotFound 2020 "US") = TargetFetch e'
        /\ eval (YearInflationIn ToLowerASCII storedOrder "US" 2020 0)
                 createTestData = Err e'
        /\ forall q, e' <> CountryNotFound q).
Proof.
  apply (CompareInflationWithBaseYear_error_kinds ToLowerASCII createTestData
           "US" 2020 0 35%float _ (rotated 2) storedOrder).
  vm_compute. reflexivity.
Defined.

Lemma CompareInflationWithBaseYear_as_CompareInflation_witness :
  eval (CompareInflationWithBaseYear ToLowerASCII (rotated 2) storedOrder
          "US" 2018 6 35%float) createTestData
    = Ok (35 * (0.4 / 0.20000000000000004))%float
  <-> exists cumulativeRate,
        eval (CompareInflation ToLowerASCII (rotated 2) storedOrder
                "US" 2015 0 2018 6 35%float) createTestData
          = Ok ((35 * (0.4 / 0.20000000000000004))%float, cumulativeRate).
Proof.
  apply (CompareInflationWithBaseYear_as_CompareInflation ToLowerASCII
           createTestData "US" 0%nat UnitedStates 2018 6).
  - reflexivity.
  - discriminate.
Defined.

Lemma CompareInflation_price_independent_witness :
  (exists newPrice2,
      eval (CompareInflation ToLowerASCII (rotated 2) (rotated 5)
              "US" 2015 0 2018 6 (-100)%float) createTestData
        = Ok (newPrice2, 99.999999999999972%float))
  /\ (exists newPrice2,
        eval (CompareInflation ToLowerASCII (rotated 4) (rotated 5)
                "US" 2015 3 2018 6 0%float) createTestData
          = Ok (newPrice2, 33.33333333333335%float)).
Proof.
  split.
  - apply (CompareInflation_price_independent ToLowerASCII createTestData "US"
             2015 0 2018 6 35%float (-100)%float 69.999999999999986%float
             99.999999999999972%float (rotated 2) storedOrder).
    + right. reflexivity.
    + left. discriminate.
    + vm_compute. reflexivity.
  - apply (CompareInflation_price_independent ToLowerASCII createTestData "US"
             2015 3 2018 6 35%float 0%float 46.666666666666671%float
             33.33333333333335%float storedOrder (rotated 1)).
    + left. discriminate.
    + left. discriminate.
    + vm_compute. reflexivity.
Defined.

Lemma available_years_cover_rates_witness :
  exists i c,
    eval (GetCountry ToLowerASCII "US") createTestData = Ok (i, c)
    /\ In 2018 (GetAvailableYears c).
Proof.
  apply (available_years_cover_rates ToLowerASCII createTestData "US" 2018 6
           0.4%float).
  - vm_compute. split; discriminate.
  - reflexivity.
Defined.

(** The keys of Gapland read as distinct positive years and positive
    months. *)
Lemma Gapland_positive_years : positive_years Gaps.Gapland.
Proof. intros entry [<- | [<- | [<- | []]]]; reflexivity. Qed.

Lemma Gapland_positive_months : positive_months Gaps.Gapland.
Proof.
  intros entry k [<- | [<- | [<- | []]]] Hk; cbn in Hk;
    repeat (destruct Hk as [<- | Hk]; [reflexivity |]); destruct Hk.
Qed.

Lemma Gapland_distinct_years : distinct_years Gaps.Gapland.
Proof.
  unfold distinct_years.
  change (GetAvailableYears Gaps.Gapland) with [2016; 2015; 2018].
  repeat constructor; cbn; intros H;
    repeat (destruct H as [H | H]; [discriminate H |]); exact H.
Qed.

Lemma GetFirstDate_lower_bound_witness :
  date_ltb (2015, 3) (GetFirstDate Gaps.Gapland) = false.
Proof.
  apply (GetFirstDate_lower_bound Gaps.Gapland 2015 3).
  - exact Gapland_positive_years.
  - exact Gapland_positive_months.
  - exact Gapland_distinct_years.
  - vm_compute. auto.
Defined.

Lemma GetLastDate_upper_bound_witness :
  date_ltb (GetLastDate Gaps.Gapland) (2018, 6) = false.
Proof.
  apply (GetLastDate_upper_bound Gaps.Gapland 2018 6).
  - exact Gapland_positive_years.
  - exact Gapland_distinct_years.
  - vm_compute. auto.
Defined.

Lemma GetFirstDate_exact_witness :
  In (GetFirstDate Gaps.Ascending) (dates Gaps.Ascending)
  /\ forall y m, In (y, m) (dates Gaps.Ascending) ->
                 date_ltb (y, m) (GetFirstDate Gaps.Ascending) = false.
Proof.
  apply (GetFirstDate_exact Gaps.Ascending
           ("2015", [("12", 0.1%float)]) [("2017", [("01", 0.2%float)])]).
  - reflexivity.
  - reflexivity.
  - discriminate.
  - intros k [<- | []]. reflexivity.
  - intros entry [<- | []]. reflexivity.
Defined.

Lemma GetLastDate_exact_witness :
  In (GetLastDate Gaps.Descending) (dates Gaps.Descending)
  /\ forall y m, In (y, m) (dates Gaps.Descending) ->
                 date_ltb (GetLastDate Gaps.Descending) (y, m) = false.
Proof.
  apply (GetLastDate_exact Gaps.Descending
           ("2017", [("01", 0.2%float)]) [("2015", [("12", 0.1%float)])]).
  - reflexivity.
  - reflexivity.
  - exists "01". split; [left |]; reflexivity.
  - intros entry [<- | []]. reflexivity.
Defined.

Lemma parsed_date_is_valid_month_witness :
  ((String.length "2018-06" = 4%nat /\ 6 = 0)
   \/ (String.length "2018-06" = 7%nat /\ 1 <= 6 <= 12))
  /\ forall (d : Data) (country : string) (badMonth : Z),
       eval (YearInflation ToLowerASCII country 2018 6) d
         <> Err (InvalidMonth badMonth).
Proof.
  apply (parsed_date_is_valid_month ToLowerASCII "2018-06" 2018 6).
  reflexivity.
Defined.

Lemma parseDate_year_witness :
  parseDate "2015" = inr (2015, 0) /\ parseDate "-123" = inr (-123, 0).
Proof.
  split.
  - apply (parseDate_year 2015); [vm_compute; split; discriminate | reflexivity].
  - apply (parseDate_year (-123)); [vm_compute; split; discriminate | reflexivity].
Defined.

Lemma parseDate_year_month_witness :
  parseDate "2015-06" = inr (2015, 6).
Proof.
  apply (parseDate_year_month 2015 6).
  - vm_compute. split; discriminate.
  - reflexivity.
  - lia.
Defined.

Lemma parseDate_dash_anywhere_witness :
  parseDate "20150-6" = inr (20150, 6).
Proof.
  apply (parseDate_dash_anywhere 20150 6).
  - vm_compute. split; discriminate.
  - lia.
  - reflexivity.
Defined.

Lemma parseDate_month_out_of_range_witness :
  parseDate "2015-13" = inl (InvalidMonthInDate None)
  /\ parseDate "2015-00" = inl (InvalidMonthInDate None).
Proof.
  split.
  - apply (parseDate_month_out_of_range 2015 13);
      [vm_compute; split; discriminate | reflexivity | right; lia].
  - apply (parseDate_month_out_of_range 2015 0);
      [vm_compute; split; discriminate | reflexivity | left; reflexivity].
Defined.

(** [TestCompareInflationWithBaseYear]: Spain has no base year and no
    rates; the import gives it the base year, creates France, and stores
    rates. *)
Lemma importCountry_keeps_rates_witness :
  eval (YearInflationIn ToLowerASCII (rotated 2) "Germany" 2015 0)
       (exec (importCountry ToLowerASCII "France" 2015) createTestData)
    = eval (YearInflationIn ToLowerASCII (rotated 2) "Germany" 2015 0)
           createTestData
  /\ eval (YearInflationIn ToLowerASCII (rotated 2) "Germany" 2015 4)
          (exec (importCountry ToLowerASCII "France" 2015) createTestData)
       = eval (YearInflationIn ToLowerASCII storedOrder "Germany" 2015 4)
              createTestData.
Proof.
  split.
  - apply (importCountry_keeps_rates ToLowerASCII createTestData "France" 2015
             "Germany" 1%nat Germany 2015 0).
    + reflexivity.
    + right. reflexivity.
  - apply (importCountry_keeps_rates ToLowerASCII createTestData "France" 2015
             "Germany" 1%nat Germany 2015 4).
    + reflexivity.
    + left. discriminate.
Defined.

Lemma importCountry_sets_base_year_witness :
  2015 <> 0
  /\ eval (CompareInflationWithBaseYear ToLowerASCII (rotated 2) storedOrder
             "es" 2018 6 50%float)
          (exec (importCountry ToLowerASCII "es" 2015) withSpain)
       <> Err (BaseYearNotSet "es").
Proof.
  split; [discriminate |].
  apply (importCountry_sets_base_year ToLowerASCII withSpain "es" 2015 2018 6
           50%float "es").
  discriminate.
Defined.

Lemma importRate_then_YearInflation_witness :
  eval (YearInflation ToLowerASCII "es" 2020 3)
       (exec (importRate 2 2020 3 1.5%float) withSpain)
    = Ok 1.5%float.
Proof.
  apply (importRate_then_YearInflation ToLowerASCII withSpain "es" 2%nat Spain
           2020 3 1.5%float).
  - reflexivity.
  - lia.
Defined.

Lemma importRate_keeps_other_dates_witness :
  eval (YearInflation ToLowerASCII "US" 2015 4)
       (exec (importRate 0 2015 3 9.5%float) createTestData) = Ok 0.2%float
  <-> eval (YearInflation ToLowerASCII "US" 2015 4) createTestData = Ok 0.2%float.
Proof.
  apply (importRate_keeps_other_dates ToLowerASCII createTestData "US" 0%nat
           UnitedStates 2015 3 9.5%float 2015 4 0.2%float).
  - reflexivity.
  - vm_compute. split; discriminate.
  - vm_compute. split; discriminate.
  - lia.
  - lia.
  - discriminate.
Defined.

Lemma importRate_keeps_other_countries_witness :
  eval (YearInflationIn ToLowerASCII (rotated 2) "US" 2015 0)
       (exec (importRate 2 2015 3 1.5%float) withSpain)
    = eval (YearInflationIn ToLowerASCII (rotated 2) "US" 2015 0) withSpain
  /\ eval (YearInflationIn ToLowerASCII (rotated 2) "US" 2015 3)
          (exec (importRate 2 2015 3 1.5%float) withSpain)
       = eval (YearInflationIn ToLowerASCII storedOrder "US" 2015 3) withSpain.
Proof.
  split.
  - apply (importRate_keeps_other_countries ToLowerASCII withSpain "es" "US"
             2%nat 0%nat Spain UnitedStates 2015 3 1.5%float 2015 0).
    + reflexivity.
    + reflexivity.
    + discriminate.
    + right. reflexivity.
  - apply (importRate_keeps_other_countries ToLowerASCII withSpain "es" "US"
             2%nat 0%nat Spain UnitedStates 2015 3 1.5%float 2015 3).
    + reflexivity.
    + reflexivity.
    + discriminate.
    + left. discriminate.
Defined.
